(* ===== verification/_CoqProject ===== *)
-Q . S2P
Prelude.v
PyPath.v
FileSys.v
Gradebook.v
ZipArchive.v
App.v
Scenario.v
Invariant.v
Properties.v
Witnesses.v
