(* ===== verification/Prelude.v ===== *)
(** * Verification of nbgrader's [zip_release_feedback] command

    Program: [src/nbgrader/apps/zipreleasefeedbackapp.py], class
    [ZipReleaseFeedbackApp].  The command reads the students of a course
    from the gradebook, finds each student's rendered feedback documents
    ([*.html], recursively) for one assignment and writes them, and
    optionally the assignment's source notebooks, into
    [{output_directory}/{assignment_id}-feedback.zip], one folder
    [{student_id}{dirname_suffix}] per student with feedback.

    ** How the program is modelled

    The process state is a record [App.world]: the file tree, the working
    directory, [sys.path], the log, whether a gradebook session is open
    and the archive being written.  Every method is a program of the
    state-and-exception monad [PyM] of this file ([S -> S * outcome A],
    Python exceptions as the values [exc]); the [with] statements of
    line 107 are [try_finally], the [for] loops are [py_for].

    - [Prelude]    exceptions, [outcome], the monad [PyM] with [let*]
                   notation, [try_finally], [py_for], the invariant
                   combinators [preserves_*] (hint database [nbgrader]),
                   string lemmas, and the tactics [by_eval], [by_decide],
                   [concrete] used to run the model on closed data.
    - [PyPath]     [str.endswith] ([PyStr]); [str.split('/')],
                   [os.path.join], [os.path.basename] and the resolution
                   of a path against the working directory ([PosixPath]).
    - [FileSys]    the file tree as a stdpp [gmap] from component lists to
                   nodes (directories with permissions, files with byte or
                   zip contents), its well-formedness [wf], and
                   [check_directory], [os.listdir], [find_all_files],
                   [os.mkdir], [os.makedirs] and [open(path, 'w+b')].
    - [Gradebook]  the class [GradebookApi] (connect; student ids, which
                   are distinct) the command is proved against, and the
                   list-backed instance [ListGradebook.list_gradebook].
    - [ZipArchive] [zipfile.ZipFile]: open (truncating the file), write
                   (append a member), close (store the members).
    - [App]        the command ([ZipReleaseFeedbackApp]): configuration
                   (lines 29-76), [initialize] (78-96),
                   [mkdirs_if_missing] (98-101), [archive_open],
                   [archive_write], [archive_close], [with_archive],
                   [with_gradebook], [feedback_files], [write_sources],
                   [process_student] and [start] (103-122); and a pure
                   model of the student loop, [student_entries] and
                   [students_entries], with the proof that the monadic
                   loop computes it ([process_student_spec],
                   [students_loop_spec], [start_spec]).
    - [Scenario]   the spec's worked example (section 8, property 7) and
                   variations of it: an unreachable gradebook, a directory
                   where the archive goes, a read-only output directory,
                   no source directory, feedback for both students, and
                   two feedback documents of the same base name.
    - [Invariant]  [world_ok] (well-formed tree, open archive is a file),
                   preserved by every operation; [released] (no session,
                   no archive) re-established by [start] on every path;
                   idempotence of a completed run.
    - [Properties] the abstract specification of the archive
                   ([block_spec], [archived]) and the refinement theorem
                   that [start] writes exactly it; error behaviour of the
                   loop; names of the archive members and their
                   collisions.
    - [Witnesses]  each theorem with hypotheses applied to a course of
                   [Scenario], its hypotheses discharged by evaluation.

    ** What the theorems show

    - Refinement: a completed run writes exactly the entries of [archived]
      (C1), through [students_entries_refines].
    - Resources: from a state holding none, every run of [start] ends
      with the tree well formed, the gradebook session closed and no
      archive open, on every raising path too (C2, [Invariant.released]);
      once both are acquired, the final state is determined: the archive
      closed with exactly the entries the loop wrote before completing or
      raising (C3).
    - Functional behaviour: no sources without [include_source] (C4),
      idempotence (C5), [_mkdirs_if_missing] on each branch (C8-C10),
      [initialize] on each branch (C17-C19), students without feedback
      contribute nothing (C16), a missing feedback folder is no error (C15).
    - Errors: a missing source directory aborts after a partial archive
      (C6), an existing unusable output path raises [FileExistsError]
      (C8), connect and open failures (C11, C12).
    - Names: each member name splits back into its folder and base name
      (C13), students' folders are disjoint (C14), and two feedback
      documents of one student with the same base name always collide
      (C7, a defect of line 116; [Scenario.archive_duplicate_names] shows
      it on a whole run).
    - Configuration: two positional arguments with a configured
      assignment are accepted and ignored (C19).

    ** Bounds and termination

    No fuel is used: every loop of the program runs over a finite list
    (students, files found, directory entries) and is a structural
    [Fixpoint]; [find_all_files] lists the keys of the finite map below a
    directory.  Success of [_mkdirs_if_missing] is proved outright (C9),
    not only the shape of its result.

    ** Not modelled

    Command-line aliases and flags (lines 17-26) and the traitlets
    machinery; [super().initialize(argv)] and [super().start()] of the
    NbGrader base application (argv parsing, logging setup, config
    files), of which only [fail] is modelled; the database layer behind
    [Gradebook] beyond its interface; compression and the byte format of
    the zip file; symbolic links and read permissions of the files the
    archive reads; [..] in paths is resolved lexically.  Regular files
    carry no permissions, so opening the archive truncates an existing
    read-only file; [os.makedirs] does not check search permission on
    existing ancestors, and a path through a regular file raises the
    error of the first check it meets ([FileNotFoundError] or
    [NotADirectoryError]), not always [ENOTDIR]; [find_all_files] lists
    files in the map's order, not [os.walk]'s, and does not skip
    unreadable subdirectories.  Claims about the archive compare its
    entries as a set (C1, C6) unless they state the list (C3). *)

From Stdlib Require Export String Ascii.
From stdpp Require Export base list strings gmap.

Declare Scope py_scope.
Delimit Scope py_scope with py.

Create HintDb nbgrader discriminated.
Create Rewrite HintDb nbgrader_rw.

(** Close a goal about concrete data by evaluation. *)
Ltac by_eval := vm_compute; reflexivity.
(** A decidable proposition on closed data, by evaluating its decision. *)
Ltac by_decide := apply (bool_decide_eq_true_1 _); vm_compute; reflexivity.
(** Membership of a closed element in a closed list. *)
Ltac by_member := vm_compute; repeat (first [left; reflexivity | right]).
(** A hypothesis of a theorem instantiated on closed data. *)
Ltac concrete :=
  lazymatch goal with
  | |- _ = _ => by_eval
  | |- In _ _ => solve [by_member]
  | |- _ => by_decide
  end.

(** ** Strings: the lemmas on [String.append] the path layer relies on *)

(** stdpp declares [String.append] [simpl never]; these two equations
    are its computation rules, used by rewriting. *)
Lemma str_app_nil_l (t : string) : ("" ++ t)%string = t.
Proof. reflexivity. Qed.

Lemma str_app_cons c (s t : string) : (String c s ++ t)%string = String c (s ++ t).
Proof. reflexivity. Qed.

Section Strings.
Implicit Types s t u : string.

Lemma str_app_assoc s t u : ((s ++ t) ++ u = s ++ (t ++ u))%string.
Proof. induction s as [|c s IH]; [done|]. by rewrite !str_app_cons, IH. Qed.

Lemma str_app_nil_r s : (s ++ "")%string = s.
Proof. induction s as [|c s IH]; [done|]. by rewrite str_app_cons, IH. Qed.

Lemma str_length_app s t : String.length (s ++ t) = String.length s + String.length t.
Proof. induction s as [|c s IH]; [done|]. rewrite str_app_cons; simpl; by rewrite IH. Qed.

Lemma str_app_nil_inv s t : (s ++ t)%string = "" -> s = "" /\ t = "".
Proof. destruct s; [done | discriminate]. Qed.
End Strings.

Lemma str_app_inv_r (s1 s2 t : string) : (s1 ++ t)%string = (s2 ++ t)%string -> s1 = s2.
Proof.
  intros H. assert (Hl : String.length s1 = String.length s2).
  { apply (f_equal String.length) in H. rewrite !str_length_app in H. lia. }
  revert s2 H Hl. induction s1 as [|c s1 IH]; intros [|d s2] H Hl; simpl in Hl; try done.
  rewrite !str_app_cons in H. injection H as -> H. f_equal. apply IH; [done|lia].
Qed.

#[export] Hint Rewrite str_app_nil_l str_app_cons str_app_assoc str_app_nil_r : nbgrader_rw.

(** Python's [c in s] for one character. *)
Fixpoint str_has (c : ascii) (s : string) : bool :=
  match s with
  | EmptyString => false
  | String d s' => bool_decide (d = c) || str_has c s'
  end.

Lemma str_has_app c s t : str_has c (s ++ t)%string = str_has c s || str_has c t.
Proof. induction s as [|d s IH]; [done|]. rewrite str_app_cons; simpl; by rewrite IH, orb_assoc. Qed.

#[export] Hint Rewrite str_has_app : nbgrader_rw.

(** ** Lists: prefixes of component paths *)

(** [strip_prefix p l] is [Some r] when [l = p ++ r]. *)
Fixpoint strip_prefix {A} `{EqDecision A} (p l : list A) : option (list A) :=
  match p, l with
  | [], _ => Some l
  | x :: p', y :: l' => if decide (x = y) then strip_prefix p' l' else None
  | _ :: _, [] => None
  end.

Lemma strip_prefix_Some {A} `{EqDecision A} (p l r : list A) :
  strip_prefix p l = Some r <-> l = p ++ r.
Proof.
  revert l. induction p as [|x p IH]; intros [|y l]; simpl;
    try (split; congruence).
  case_decide; subst.
  - rewrite IH. split; [by intros ->|by intros [=]].
  - split; [done|by intros [=]].
Qed.

Lemma strip_prefix_app {A} `{EqDecision A} (p r : list A) : strip_prefix p (p ++ r) = Some r.
Proof. by apply strip_prefix_Some. Qed.

#[export] Hint Rewrite @strip_prefix_app : nbgrader_rw.

(** ** Python exceptions and results *)

(** The exceptions the modelled code can raise or propagate.  Paths are
    resolved component lists (see [PyPath.resolve]). *)
Inductive exc : Type :=
  | FileNotFoundError (p : list string)
  | FileExistsError (p : list string)
  | NotADirectoryError (p : list string)
  | IsADirectoryError (p : list string)
  | PermissionError (p : list string)
  | DatabaseError (msg : string)
  | SystemExit (code : nat)
  | ValueError (msg : string).

#[export] Instance exc_eq_dec : EqDecision exc.
Proof. solve_decision. Qed.

Inductive outcome (A : Type) : Type :=
  | Ok (a : A)
  | Raise (e : exc).
Arguments Ok {A} a.
Arguments Raise {A} e.

(** Sequencing of pure fallible steps. *)
Definition obind {A B} (o : outcome A) (k : A -> outcome B) : outcome B :=
  match o with Ok a => k a | Raise e => Raise e end.

Lemma obind_Ok_inv {A B} (o : outcome A) (k : A -> outcome B) b :
  obind o k = Ok b -> exists a, o = Ok a /\ k a = Ok b.
Proof. destruct o; simpl; [eauto | discriminate]. Qed.

(** ** The state-and-exception monad

    A Python statement runs on a state [S] and either completes with a
    value or raises; an exception keeps the state reached so far (Python
    does not roll back side effects). *)
Definition PyM (S A : Type) : Type := S -> S * outcome A.

Section Monad.
Context {S : Type}.

Definition ret {A} (a : A) : PyM S A := fun s => (s, Ok a).

Definition bind {A B} (m : PyM S A) (k : A -> PyM S B) : PyM S B :=
  fun s => match m s with
           | (s', Ok a) => k a s'
           | (s', Raise e) => (s', Raise e)
           end.

Definition raise {A} (e : exc) : PyM S A := fun s => (s, Raise e).

Definition gets {A} (f : S -> A) : PyM S A := fun s => (s, Ok (f s)).

Definition modify (f : S -> S) : PyM S unit := fun s => (f s, Ok tt).

(** Embed a pure fallible step. *)
Definition lift {A} (o : outcome A) : PyM S A := fun s => (s, o).

(** [try: body finally: fin]: [fin] runs whether or not [body] raised;
    [body]'s exception is re-raised afterwards unless [fin] raises. *)
Definition try_finally {A} (body : PyM S A) (fin : PyM S unit) : PyM S A :=
  fun s => let '(s1, r) := body s in
           let '(s2, rf) := fin s1 in
           match rf with Ok _ => (s2, r) | Raise e => (s2, Raise e) end.

(** A Python [for x in l: body]: stops at the first exception. *)
Fixpoint py_for {A} (l : list A) (body : A -> PyM S unit) : PyM S unit :=
  match l with
  | [] => ret tt
  | x :: l' => bind (body x) (fun _ => py_for l' body)
  end.
End Monad.

Notation "'let*' x ':=' c 'in' k" := (bind c (fun x => k))
  (at level 20, x name, c at level 100, k at level 200,
   format "'[v' 'let*'  x  ':='  c  'in' '/' k ']'") : py_scope.

Open Scope py_scope.

(** Two members of [l] with the same image under [g] are equal when the
    images are duplicate-free. *)
Lemma NoDup_map_eq {A B} (g : A -> B) (l : list A) x y :
  NoDup (map g l) -> In x l -> In y l -> g x = g y -> x = y.
Proof.
  induction l as [|z l IH]; simpl; [done|].
  intros [Hz Hnd]%NoDup_cons [<-|Hx] [<-|Hy] Heq; auto.
  - exfalso. apply Hz. rewrite Heq. by apply list_elem_of_In, in_map.
  - exfalso. apply Hz. rewrite <- Heq. by apply list_elem_of_In, in_map.
Qed.

Section MonadLaws.
Context {S : Type}.

Lemma bind_ret_l {A B} (a : A) (k : A -> PyM S B) s : bind (ret a) k s = k a s.
Proof. done. Qed.

Lemma bind_assoc {A B C} (m : PyM S A) (k : A -> PyM S B) (h : B -> PyM S C) s :
  bind (bind m k) h s = bind m (fun a => bind (k a) h) s.
Proof. unfold bind. destruct (m s) as [s' [a|e]]; done. Qed.

Lemma bind_Ok {A B} (m : PyM S A) (k : A -> PyM S B) s s' a :
  m s = (s', Ok a) -> bind m k s = k a s'.
Proof. unfold bind. by intros ->. Qed.

Lemma bind_Raise {A B} (m : PyM S A) (k : A -> PyM S B) s s' e :
  m s = (s', Raise e) -> bind m k s = (s', Raise e).
Proof. unfold bind. by intros ->. Qed.

Lemma py_for_app {A} (l1 l2 : list A) (body : A -> PyM S unit) s :
  py_for (l1 ++ l2) body s = bind (py_for l1 body) (fun _ => py_for l2 body) s.
Proof.
  revert s; induction l1 as [|x l1 IH]; intros s; simpl; [done|].
  rewrite bind_assoc. unfold bind at 1 2.
  destruct (body x s) as [s' [u|e]]; [apply IH | done].
Qed.

End MonadLaws.

(** ** Invariants of monadic programs

    [preserves P c]: from a state satisfying [P], [c] ends in a state
    satisfying [P], whether it returns or raises. *)
Definition preserves {S A} (P : S -> Prop) (c : PyM S A) : Prop :=
  forall s, P s -> P (c s).1.

Section Preserves.
Context {S : Type} (P : S -> Prop).

Lemma preserves_ret {A} (a : A) : preserves P (ret a).
Proof. by intros s. Qed.

Lemma preserves_raise {A} e : preserves P (@raise S A e).
Proof. by intros s. Qed.

Lemma preserves_lift {A} (o : outcome A) : preserves P (lift o).
Proof. by intros s. Qed.

Lemma preserves_bind {A B} (c : PyM S A) (k : A -> PyM S B) :
  preserves P c -> (forall a, preserves P (k a)) -> preserves P (bind c k).
Proof.
  intros Hc Hk s Hs. unfold bind. specialize (Hc s Hs).
  destruct (c s) as [s' [a|e]]; [by apply Hk|done].
Qed.

Lemma preserves_try_finally {A} (body : PyM S A) fin :
  preserves P body -> preserves P fin -> preserves P (try_finally body fin).
Proof.
  intros Hb Hf s Hs. unfold try_finally. specialize (Hb s Hs).
  destruct (body s) as [s1 r]. specialize (Hf s1 Hb).
  destruct (fin s1) as [s2 [u|e]]; done.
Qed.

Lemma preserves_py_for {A} (l : list A) body :
  (forall x, In x l -> preserves P (body x)) -> preserves P (py_for l body).
Proof.
  induction l as [|x l IH]; intros Hb; simpl; [apply preserves_ret|].
  apply preserves_bind; [by apply Hb; left|]. intros _. apply IH. intros y Hy. apply Hb. by right.
Qed.
End Preserves.

#[export] Hint Resolve preserves_ret preserves_raise preserves_lift preserves_bind
  preserves_try_finally preserves_py_for : nbgrader.

