(* ===== verification/PyPath.v ===== *)
(** * Python strings and POSIX paths

    The string and path primitives the command calls: [str.endswith]
    (lines 112 and 121), [str.split('/')], [os.path.join] and
    [os.path.basename] (lines 107, 116, 122) and the resolution of a path
    string against the working directory that every [os] call performs.
    They are library code, modelled from the Python documentation;
    [resolve] treats [..] lexically (no symbolic links). *)

From S2P Require Import Prelude.

Module PyStr.

(** [s.endswith(suffix)]. *)
Fixpoint endswith (s suffix : string) : bool :=
  String.eqb s suffix ||
  match s with
  | EmptyString => false
  | String _ s' => endswith s' suffix
  end.

(** [s.startswith('/')]. *)
Definition starts_with_sep (s : string) : bool :=
  match s with
  | String c _ => bool_decide (c = "/"%char)
  | EmptyString => false
  end.

(** [endswith] is Python's: [s] is some string followed by [suffix]. *)
Lemma endswith_spec s suffix :
  endswith s suffix = true <-> exists p, s = (p ++ suffix)%string.
Proof.
  split.
  - induction s as [|c s IH]; cbn -[String.eqb]; intros H.
    + apply orb_true_iff in H as [H|H]; [|done].
      exists "". by apply String.eqb_eq in H as <-.
    + apply orb_true_iff in H as [H|H].
      * exists "". by apply String.eqb_eq in H as <-.
      * destruct (IH H) as [p ->]. by exists (String c p).
  - intros [p ->]. induction p as [|c p IH].
    + rewrite str_app_nil_l. destruct suffix; cbn -[String.eqb]; by rewrite String.eqb_refl.
    + rewrite str_app_cons. cbn -[String.eqb]. rewrite IH. apply orb_true_r.
Qed.

Lemma str_has_eq_false c s t : str_has c s = true -> str_has c t = false -> String.eqb s t = false.
Proof. intros Hs Ht. apply String.eqb_neq. intros ->. congruence. Qed.

(** A suffix without a separator is decided by the text after the last
    separator. *)
Lemma endswith_sep_app a n suffix :
  str_has "/" suffix = false ->
  endswith (a ++ String "/" n)%string suffix = endswith n suffix.
Proof.
  intros Hsuf. induction a as [|c a IH].
  - rewrite str_app_nil_l. cbn -[String.eqb].
    by rewrite (str_has_eq_false "/" _ suffix).
  - rewrite str_app_cons. cbn -[String.eqb].
    rewrite IH, (str_has_eq_false "/" _ suffix); [done | | done].
    simpl. rewrite str_has_app. simpl. by rewrite !orb_true_r.
Qed.

Lemma starts_with_sep_app a x : a <> "" -> starts_with_sep (a ++ x)%string = starts_with_sep a.
Proof. by destruct a. Qed.

Lemma starts_with_sep_app_sep a x y :
  starts_with_sep (a ++ String "/" x)%string = starts_with_sep (a ++ String "/" y)%string.
Proof. by destruct a. Qed.

Lemma starts_with_sep_no_sep n : str_has "/" n = false -> starts_with_sep n = false.
Proof.
  destruct n as [|c n]; simpl; [done|].
  intros H. apply orb_false_iff in H as [H _]. exact H.
Qed.

End PyStr.

Module PosixPath.
Import PyStr.

(** [s.split('/')]: the fields between separators, always at least one. *)
Fixpoint split_sep (s : string) : list string :=
  match s with
  | EmptyString => [""]
  | String c s' =>
      let r := split_sep s' in
      if bool_decide (c = "/"%char) then "" :: r
      else match r with
           | [] => [String c ""]
           | h :: t => String c h :: t
           end
  end.

(** [posixpath.join(a, b)]. *)
Definition join (a b : string) : string :=
  if starts_with_sep b then b
  else if bool_decide (a = "") || endswith a "/" then (a ++ b)%string
  else (a ++ String "/" b)%string.

(** [posixpath.join(a, *p)]. *)
Definition join_many (a : string) (p : list string) : string :=
  fold_left join p a.

(** [posixpath.basename(p)]: [p[p.rfind('/') + 1:]], the last field. *)
Definition basename (p : string) : string := List.last (split_sep p) "".

(** A directory entry name: what [os.listdir] returns. *)
Definition valid_name (n : string) : bool :=
  bool_decide (n <> "") && bool_decide (n <> ".") && bool_decide (n <> "..")
  && negb (str_has "/" n).

(** One step of resolving a path component on a reversed stack. *)
Definition resolve_step (acc : list string) (c : string) : list string :=
  if bool_decide (c = "") || bool_decide (c = ".") then acc
  else if bool_decide (c = "..") then tail acc
  else c :: acc.

Definition normalize (cs : list string) : list string :=
  rev (fold_left resolve_step cs []).

(** The absolute component list an [os] call uses for path [p] when the
    working directory is [cwd]. *)
Definition resolve (cwd : list string) (p : string) : list string :=
  normalize ((if starts_with_sep p then [] else cwd) ++ split_sep p).

Section Split.
Implicit Types s a b : string.

Lemma split_sep_nonempty s : split_sep s <> [].
Proof.
  destruct s as [|c s]; simpl; [done|].
  case_bool_decide; [done|]. by destruct (split_sep s).
Qed.

Lemma split_sep_no_sep s : str_has "/" s = false -> split_sep s = [s].
Proof.
  induction s as [|c s IH]; simpl; [done|].
  intros [Hc Hs]%orb_false_iff. rewrite IH by done.
  apply bool_decide_eq_false in Hc. by rewrite bool_decide_false.
Qed.

(** [split] turns a separator into a list boundary. *)
Lemma split_sep_app_sep a b :
  split_sep (a ++ String "/" b)%string = split_sep a ++ split_sep b.
Proof.
  induction a as [|c a IH].
  - by rewrite str_app_nil_l.
  - rewrite str_app_cons. simpl. rewrite IH.
    pose proof (split_sep_nonempty a) as Hne.
    destruct (split_sep a) as [|h t]; [done|].
    by case_bool_decide.
Qed.

(** Round trip: ['/'.join(s.split('/')) == s]. *)
Lemma concat_split_sep s : String.concat "/" (split_sep s) = s.
Proof.
  induction s as [|c s IH]; [done|]. cbn [split_sep].
  pose proof (split_sep_nonempty s) as Hne.
  destruct (split_sep s) as [|h t]; [done|].
  case_bool_decide as Hc.
  - subst c. change (String.concat "/" ("" :: h :: t))
      with ("" ++ "/" ++ String.concat "/" (h :: t))%string. by rewrite IH.
  - destruct t as [|h' t]; [simpl in *; by subst|].
    change (String.concat "/" (String c h :: h' :: t))
      with (String c h ++ "/" ++ String.concat "/" (h' :: t))%string.
    change (String.concat "/" (h :: h' :: t))
      with (h ++ "/" ++ String.concat "/" (h' :: t))%string in IH.
    by rewrite str_app_cons, IH.
Qed.

(** Round trip: [('/'.join(segs)).split('/') == segs] for fields without
    separators. *)
Lemma split_sep_concat segs :
  segs <> [] -> Forall (fun x => str_has "/" x = false) segs ->
  split_sep (String.concat "/" segs) = segs.
Proof.
  induction segs as [|x segs IH]; intros Hne Hall; [done|].
  apply Forall_cons in Hall as [Hx Hall].
  destruct segs as [|y segs].
  - by apply split_sep_no_sep.
  - change (String.concat "/" (x :: y :: segs)) with
      (x ++ String "/" (String.concat "/" (y :: segs)))%string.
    rewrite split_sep_app_sep, split_sep_no_sep, IH by done. done.
Qed.
End Split.

Lemma valid_name_spec n :
  valid_name n = true <-> n <> "" /\ n <> "." /\ n <> ".." /\ str_has "/" n = false.
Proof.
  unfold valid_name. rewrite !andb_true_iff, negb_true_iff, !bool_decide_eq_true. tauto.
Qed.

(** The three shapes [join a n] takes for a relative [n]. *)
Lemma join_cases a n :
  starts_with_sep n = false ->
  (a = "" /\ join a n = n) \/
  (exists a', a <> "" /\ join a n = (a' ++ String "/" n)%string /\
              (a = a' \/ a = (a' ++ "/")%string)).
Proof.
  intros Hn. unfold join. rewrite Hn.
  destruct (decide (a = "")) as [->|Ha]; [by left|right].
  rewrite bool_decide_false by done. simpl.
  destruct (endswith a "/") eqn:E.
  - apply endswith_spec in E as [a' ->]. exists a'.
    split; [done|]. split; [by rewrite str_app_assoc | by right].
  - exists a. auto.
Qed.

Lemma basename_join a n : str_has "/" n = false -> basename (join a n) = n.
Proof.
  intros Hn. unfold basename.
  destruct (join_cases a n) as [[_ ->]|(a' & _ & -> & _)];
    [by apply starts_with_sep_no_sep| |].
  - by rewrite split_sep_no_sep.
  - rewrite split_sep_app_sep, (split_sep_no_sep n) by done. apply List.last_last.
Qed.

Lemma endswith_join a n suffix :
  str_has "/" n = false -> str_has "/" suffix = false ->
  endswith (join a n) suffix = endswith n suffix.
Proof.
  intros Hn Hs.
  destruct (join_cases a n) as [[_ ->]|(a' & _ & -> & _)];
    [by apply starts_with_sep_no_sep|done|].
  by apply endswith_sep_app.
Qed.

(** Joining a plain name onto a plain, non-empty directory name gives a
    path of exactly those two fields. *)
Lemma split_join_plain d x :
  d <> "" -> str_has "/" d = false -> str_has "/" x = false -> split_sep (join d x) = [d; x].
Proof.
  intros Hd Hdd Hx.
  destruct (join_cases d x (starts_with_sep_no_sep x Hx)) as [[-> _]|(d' & _ & Hj & [->| ->])];
    [done| |].
  - by rewrite Hj, split_sep_app_sep, !split_sep_no_sep.
  - rewrite str_has_app in Hdd. simpl in Hdd. by rewrite orb_true_r in Hdd.
Qed.

Section Normalize.
Lemma normalize_snoc cs c :
  c <> "" -> c <> "." -> c <> ".." -> normalize (cs ++ [c]) = normalize cs ++ [c].
Proof.
  intros H1 H2 H3. unfold normalize. rewrite fold_left_app. simpl.
  unfold resolve_step. rewrite !bool_decide_false by done. done.
Qed.

Lemma normalize_snoc_empty cs : normalize (cs ++ [""]) = normalize cs.
Proof. unfold normalize. rewrite fold_left_app. done. Qed.
End Normalize.

(** Joining an entry name onto a path resolves to the entry below it. *)
Lemma resolve_join cwd a n :
  valid_name n = true -> resolve cwd (join a n) = resolve cwd a ++ [n].
Proof.
  intros (H1 & H2 & H3 & H4)%valid_name_spec.
  pose proof (starts_with_sep_no_sep n H4) as Hn.
  unfold resolve.
  destruct (join_cases a n Hn) as [[-> ->]|(a' & Ha & Hj & [->| ->])].
  - rewrite Hn, split_sep_no_sep by done.
    change (split_sep "") with [""]. rewrite normalize_snoc_empty.
    by apply normalize_snoc.
  - rewrite Hj, starts_with_sep_app by done.
    rewrite split_sep_app_sep, (split_sep_no_sep n), app_assoc by done.
    by apply normalize_snoc.
  - rewrite Hj. change (a' ++ "/")%string with (a' ++ String "/" "")%string.
    rewrite (starts_with_sep_app_sep a' n "").
    rewrite !split_sep_app_sep, (split_sep_no_sep n) by done.
    change (split_sep "") with [""].
    rewrite !app_assoc, normalize_snoc_empty. by apply normalize_snoc.
Qed.

Lemma split_sep_no_sep_fields s : Forall (fun c => str_has "/" c = false) (split_sep s).
Proof.
  induction s as [|c s IH]; simpl; [by repeat constructor|].
  pose proof (split_sep_nonempty s) as Hne.
  case_bool_decide as Hc; [by constructor|].
  destruct (split_sep s) as [|h t]; [done|].
  apply Forall_cons in IH as [Hh Ht]. constructor; [|done].
  simpl. rewrite Hh, orb_false_r. by apply bool_decide_eq_false.
Qed.

(** Resolution only ever yields entry names. *)
Lemma resolve_valid cwd p :
  Forall (fun n => valid_name n = true) cwd ->
  Forall (fun n => valid_name n = true) (resolve cwd p).
Proof.
  intros Hcwd. unfold resolve, normalize. apply Forall_rev.
  assert (Hin : Forall (fun c => str_has "/" c = false)
                  ((if starts_with_sep p then [] else cwd) ++ split_sep p)).
  { apply Forall_app. split; [|apply split_sep_no_sep_fields].
    destruct (starts_with_sep p); [done|].
    eapply Forall_impl; [exact Hcwd|]. intros n (_ & _ & _ & Hn)%valid_name_spec. done. }
  revert Hin. generalize ((if starts_with_sep p then [] else cwd) ++ split_sep p) as cs.
  intros cs Hin.
  assert (Hnil : Forall (fun n => valid_name n = true) (@nil string)) by constructor.
  revert Hnil. generalize (@nil string).
  induction Hin as [|c cs Hc Hcs IH]; intros acc Hacc; simpl; [done|].
  apply IH. unfold resolve_step.
  case_bool_decide; [done|]. case_bool_decide; simpl; [done|].
  case_bool_decide; [by apply Forall_tail|].
  constructor; [|done]. by apply valid_name_spec.
Qed.

Section JoinMany.
Context (cwd : list string).

Lemma resolve_join_many a rel :
  Forall (fun n => valid_name n = true) rel ->
  resolve cwd (join_many a rel) = resolve cwd a ++ rel.
Proof.
  unfold join_many. revert a. induction rel as [|n rel IH]; intros a Hrel; simpl.
  - by rewrite app_nil_r.
  - apply Forall_cons in Hrel as [Hn Hrel].
    rewrite IH, resolve_join by done. by rewrite <- app_assoc.
Qed.

Lemma join_many_snoc a rel n : join_many a (rel ++ [n]) = join (join_many a rel) n.
Proof. unfold join_many. by rewrite fold_left_app. Qed.

Lemma basename_join_many a rel n :
  str_has "/" n = false -> basename (join_many a (rel ++ [n])) = n.
Proof. intros Hn. rewrite join_many_snoc. by apply basename_join. Qed.

Lemma endswith_join_many a rel n suffix :
  str_has "/" n = false -> str_has "/" suffix = false ->
  endswith (join_many a (rel ++ [n])) suffix = endswith n suffix.
Proof. intros Hn Hs. rewrite join_many_snoc. by apply endswith_join. Qed.
End JoinMany.

End PosixPath.
