(* ===== verification/FileSys.v ===== *)
(** * The file system the command reads and writes

    A POSIX file tree as a finite map from absolute component lists to
    nodes, with the operations the command performs on it: the checks of
    [nbgrader.utils.check_directory], [os.makedirs] (line 101),
    [os.listdir] (line 120), the recursive walk of
    [nbgrader.utils.find_all_files] (line 112), and opening a file for
    writing as [zipfile.ZipFile(path, 'w')] does (line 107).  These are
    library and operating-system behaviour, modelled from the spec and the
    Python documentation.  Permissions are those of the running user;
    file contents are opaque strings or a finished zip archive. *)

From S2P Require Import Prelude PyPath.
Import PyStr PosixPath.

Module FileSys.

Record perms := mk_perms { can_read : bool; can_write : bool; can_exec : bool }.

(** Mode [0o777] under the usual umask: the creator may do everything. *)
Definition default_dir_perms : perms := mk_perms true true true.

#[warnings="-register-all"]
Inductive content : Type :=
  | Bytes (data : string)
  | ZipData (entries : list (string * option content)).

Inductive node : Type :=
  | Dir (p : perms)
  | File (c : content).

Abbreviation fs := (gmap (list string) node).

Definition is_dir (m : fs) (r : list string) : bool :=
  match m !! r with Some (Dir _) => true | _ => false end.

(** Every node but the root hangs below a directory under a proper name. *)
Definition key_ok (m : fs) (k : list string) : bool :=
  match k with
  | [] => true
  | _ => valid_name (List.last k "") && is_dir m (removelast k)
  end.

Definition wf (m : fs) : Prop :=
  is_dir m [] = true /\ map_Forall (fun k _ => key_ok m k = true) m.

#[export] Instance wf_dec m : Decision (wf m).
Proof. unfold wf. apply _. Defined.

(** [check_directory(path, read, write, execute)]: [path] is a directory
    and the user has the requested access to it. *)
Definition check_directory (m : fs) (r : list string) (read write execute : bool) : bool :=
  match m !! r with
  | Some (Dir p) =>
      (negb read || can_read p) && (negb write || can_write p)
      && (negb execute || can_exec p)
  | _ => false
  end.

(** Names of the entries directly below [r]. *)
Definition children (m : fs) (r : list string) : list string :=
  omap (fun kv => match strip_prefix r kv.1 with Some [n] => Some n | _ => None end)
       (map_to_list m).

(** [os.listdir(path)]. *)
Definition listdir (m : fs) (r : list string) : outcome (list string) :=
  match m !! r with
  | Some (Dir p) => if can_read p then Ok (children m r) else Raise (PermissionError r)
  | Some (File _) => Raise (NotADirectoryError r)
  | None => Raise (FileNotFoundError r)
  end.

(** [find_all_files(top)]: the path of every regular file strictly below
    [top], spelled as [os.walk] spells it, [os.path.join(top, ...)];
    nothing when [top] is missing or is not a directory. *)
Definition find_all_files (m : fs) (cwd : list string) (top : string) : list string :=
  let r := resolve cwd top in
  omap (fun kv => match kv.2, strip_prefix r kv.1 with
                  | File _, Some ((_ :: _) as rel) => Some (join_many top rel)
                  | _, _ => None
                  end)
       (map_to_list m).

(** [os.mkdir(path)] with default mode. *)
Definition mkdir (m : fs) (r : list string) : outcome fs :=
  match m !! r with
  | Some _ => Raise (FileExistsError r)
  | None =>
      match m !! removelast r with
      | Some (Dir p) =>
          if can_write p && can_exec p then Ok (<[r := Dir default_dir_perms]> m)
          else Raise (PermissionError r)
      | Some (File _) => Raise (NotADirectoryError r)
      | None => Raise (FileNotFoundError r)
      end
  end.

(** A proper ancestor [os.makedirs] can pass through: missing (it will be
    created) or a directory the user may write to and traverse. *)
Definition usable_or_missing (m : fs) (q : list string) : bool :=
  match m !! q with
  | None => true
  | Some (Dir p) => can_write p && can_exec p
  | Some (File _) => false
  end.

Definition ancestors_writable (m : fs) (r : list string) : bool :=
  forallb (fun i => usable_or_missing m (take i r)) (seq 0 (length r)).

(** [os.makedirs(path)] ([exist_ok=False]): create the missing ancestors
    from the root down, then the leaf, which must not exist. *)
Fixpoint makedirs_go (m : fs) (parent rest : list string) : outcome fs :=
  match rest with
  | [] => Raise (FileExistsError parent)
  | [n] => mkdir m (parent ++ [n])
  | n :: rest' =>
      let q := parent ++ [n] in
      match m !! q with
      | Some _ => makedirs_go m q rest'
      | None => obind (mkdir m q) (fun m' => makedirs_go m' q rest')
      end
  end.

Definition makedirs (m : fs) (r : list string) : outcome fs := makedirs_go m [] r.

(** [open(path, 'w+b')]: create or truncate a regular file. *)
Definition open_w (m : fs) (r : list string) (c : content) : outcome fs :=
  match m !! r with
  | Some (Dir _) => Raise (IsADirectoryError r)
  | Some (File _) => Ok (<[r := File c]> m)
  | None =>
      match m !! removelast r with
      | Some (Dir p) =>
          if can_write p && can_exec p then Ok (<[r := File c]> m)
          else Raise (PermissionError r)
      | Some (File _) => Raise (NotADirectoryError r)
      | None => Raise (FileNotFoundError r)
      end
  end.

Definition is_dir_node (nd : node) : bool :=
  match nd with Dir _ => true | File _ => false end.

(** ** Lookups *)

Lemma is_dir_Some m r : is_dir m r = true <-> exists p, m !! r = Some (Dir p).
Proof.
  unfold is_dir. destruct (m !! r) as [[p|c]|]; split; intros H.
  all: try done; try by eexists.
  all: by destruct H.
Qed.

Lemma is_dir_insert m r nd p :
  is_dir (<[r := nd]> m) p = if decide (r = p) then is_dir_node nd else is_dir m p.
Proof.
  unfold is_dir. case_decide; subst.
  - rewrite lookup_insert_eq. by destruct nd.
  - by rewrite lookup_insert_ne.
Qed.

Lemma elem_of_children m r n : n ∈ children m r <-> is_Some (m !! (r ++ [n])).
Proof.
  unfold children. rewrite list_elem_of_omap. split.
  - intros ([k nd] & Hin & Hk). simpl in Hk.
    destruct (strip_prefix r k) as [[|n' [|]]|] eqn:E; try done.
    injection Hk as <-. apply strip_prefix_Some in E as ->.
    apply fin_maps.elem_of_map_to_list in Hin. by eexists.
  - intros [nd Hnd]. exists (r ++ [n], nd). split.
    + by apply fin_maps.elem_of_map_to_list.
    + simpl. by rewrite strip_prefix_app.
Qed.

Lemma elem_of_find_all_files m cwd top f :
  f ∈ find_all_files m cwd top <->
  exists rel c, rel <> [] /\ m !! (resolve cwd top ++ rel) = Some (File c)
                /\ f = join_many top rel.
Proof.
  unfold find_all_files. rewrite list_elem_of_omap. split.
  - intros ([k nd] & Hin & Hk). apply fin_maps.elem_of_map_to_list in Hin. simpl in Hk.
    destruct nd as [p|c]; [done|].
    destruct (strip_prefix (resolve cwd top) k) as [[|n rel]|] eqn:E; try done.
    injection Hk as <-. apply strip_prefix_Some in E as ->.
    exists (n :: rel), c. split_and!; [discriminate|done|done].
  - intros (rel & c & Hne & Hk & ->). exists (resolve cwd top ++ rel, File c). split.
    + by apply fin_maps.elem_of_map_to_list.
    + simpl. rewrite strip_prefix_app. by destruct rel.
Qed.

Lemma listdir_Ok m r ns :
  listdir m r = Ok ns <-> exists p, m !! r = Some (Dir p) /\ can_read p = true /\ ns = children m r.
Proof.
  unfold listdir. destruct (m !! r) as [[p|c]|]; split; intros H; try done;
    try (destruct H as (? & ? & ?); congruence).
  - destruct (can_read p) eqn:E; [|done]. injection H as <-. by exists p.
  - destruct H as (p' & [= <-] & -> & ->). done.
Qed.

(** ** Well-formedness *)

Lemma removelast_neq {A} (r : list A) : r <> [] -> removelast r <> r.
Proof.
  intros Hr Heq. destruct (exists_last Hr) as (r' & x & ->).
  rewrite removelast_last in Heq. apply (f_equal length) in Heq.
  rewrite length_app in Heq. simpl in Heq. lia.
Qed.

(** Inserting a node keeps the tree well formed when the node hangs
    below a directory under a proper name and no directory is replaced
    by a file. *)
Lemma wf_insert m r nd :
  wf m ->
  (r = [] -> is_dir_node nd = true) ->
  (r <> [] -> valid_name (List.last r "") = true /\ is_dir m (removelast r) = true) ->
  (is_dir m r = true -> is_dir_node nd = true) ->
  wf (<[r := nd]> m).
Proof.
  intros [Hroot Hall] Hr0 Hr Hdir.
  assert (Hmono : forall p, is_dir m p = true -> is_dir (<[r := nd]> m) p = true).
  { intros p Hp. rewrite is_dir_insert. case_decide; subst; auto. }
  split; [by apply Hmono|].
  apply map_Forall_insert_2.
  - unfold key_ok. destruct r as [|x r'] eqn:E; [done|].
    rewrite <- E in *. destruct (Hr ltac:(by subst)) as [Hv Hp].
    rewrite Hv, is_dir_insert, decide_False; [done|].
    intros Heq. by apply (removelast_neq r); [subst|].
  - intros k v Hk. specialize (Hall k v Hk). simpl in *.
    unfold key_ok in *. destruct k; [done|].
    apply andb_true_iff in Hall as [Hv Hp]. by rewrite Hv, Hmono.
Qed.

Lemma wf_parent m k nd :
  wf m -> m !! k = Some nd -> k <> [] ->
  valid_name (List.last k "") = true /\ is_dir m (removelast k) = true.
Proof.
  intros [_ Hall] Hk Hne. specialize (Hall k nd Hk). simpl in Hall.
  unfold key_ok in Hall. destruct k; [done|]. by apply andb_true_iff in Hall.
Qed.

(** Every proper prefix of a node is a directory, and the components
    below it are entry names. *)
Lemma wf_ancestor m p q nd :
  wf m -> m !! (p ++ q) = Some nd -> q <> [] ->
  is_dir m p = true /\ Forall (fun n => valid_name n = true) q.
Proof.
  intros Hwf. revert nd. induction q as [|x q IH] using rev_ind; intros nd Hk Hne; [done|].
  rewrite app_assoc in Hk.
  destruct (wf_parent m _ _ Hwf Hk) as [Hv Hp]; [by destruct p, q|].
  rewrite removelast_last in Hp. rewrite last_last in Hv.
  destruct (decide (q = [])) as [->|Hq].
  - rewrite app_nil_r in Hp. split; [done|]. by constructor.
  - apply is_dir_Some in Hp as [pp Hpp].
    destruct (IH _ Hpp Hq) as [Hd Hall]. split; [done|].
    apply Forall_app. split; [done|]. by constructor.
Qed.

(** Nothing is found below a path that is not a directory. *)
Lemma find_all_files_not_dir m cwd top :
  wf m -> is_dir m (resolve cwd top) = false -> find_all_files m cwd top = [].
Proof.
  intros Hwf Hnd. apply elem_of_nil_inv. intros f Hf.
  apply elem_of_find_all_files in Hf as (rel & c & Hne & Hk & _).
  destruct (wf_ancestor m _ _ _ Hwf Hk Hne) as [Hd _]. congruence.
Qed.

(** ** Creating directories *)

Lemma mkdir_Ok m r m' :
  mkdir m r = Ok m' ->
  m !! r = None /\ (exists p, m !! removelast r = Some (Dir p) /\ can_write p && can_exec p = true)
  /\ m' = <[r := Dir default_dir_perms]> m.
Proof.
  unfold mkdir. destruct (m !! r); [done|].
  destruct (m !! removelast r) as [[p|c]|]; try done.
  destruct (can_write p && can_exec p) eqn:E; [|done]. intros [= <-]. eauto.
Qed.

Lemma mkdir_wf m r m' :
  wf m -> r <> [] -> valid_name (List.last r "") = true -> mkdir m r = Ok m' -> wf m'.
Proof.
  intros Hwf Hne Hv (Hnone & (p & Hp & _) & ->)%mkdir_Ok.
  apply wf_insert; [done|done| |done].
  intros _. split; [done|]. apply is_dir_Some. eauto.
Qed.

Lemma mkdir_subseteq m r m' : mkdir m r = Ok m' -> m ⊆ m'.
Proof. intros (Hnone & _ & ->)%mkdir_Ok. by apply insert_subseteq. Qed.

Section Makedirs.
Implicit Types (parent rest : list string).

Lemma makedirs_go_ind (P : fs -> fs -> list string -> list string -> Prop) :
  (forall m parent n m', mkdir m (parent ++ [n]) = Ok m' -> P m m' parent [n]) ->
  (forall m parent n x rest m',
      m !! (parent ++ [n]) <> None -> makedirs_go m (parent ++ [n]) (x :: rest) = Ok m' ->
      P m m' (parent ++ [n]) (x :: rest) -> P m m' parent (n :: x :: rest)) ->
  (forall m m1 parent n x rest m',
      mkdir m (parent ++ [n]) = Ok m1 -> makedirs_go m1 (parent ++ [n]) (x :: rest) = Ok m' ->
      P m1 m' (parent ++ [n]) (x :: rest) -> P m m' parent (n :: x :: rest)) ->
  forall rest m parent m', makedirs_go m parent rest = Ok m' -> P m m' parent rest.
Proof.
  intros H1 H2 H3. induction rest as [|n [|x rest] IH]; intros m parent m' Hgo;
    simpl in Hgo; [done|by eapply H1|].
  destruct (m !! (parent ++ [n])) eqn:E.
  - eapply H2; [congruence|done|]. by apply IH.
  - apply obind_Ok_inv in Hgo as (m1 & Hm1 & Hgo). eapply H3; [done|done|]. by apply IH.
Qed.

(** After [os.makedirs(path)] the path is a fresh directory the user
    may write to and traverse. *)
Lemma makedirs_go_leaf m parent rest m' :
  makedirs_go m parent rest = Ok m' -> m' !! (parent ++ rest) = Some (Dir default_dir_perms).
Proof.
  intros H. refine (makedirs_go_ind
    (fun m m' parent rest => m' !! (parent ++ rest) = Some (Dir default_dir_perms))
    _ _ _ rest m parent m' H).
  - intros ? ? ? ? (_ & _ & ->)%mkdir_Ok. by rewrite lookup_insert_eq.
  - intros * _ _ IH. by rewrite <- app_assoc in IH.
  - intros * _ _ IH. by rewrite <- app_assoc in IH.
Qed.

Lemma makedirs_go_subseteq m parent rest m' : makedirs_go m parent rest = Ok m' -> m ⊆ m'.
Proof.
  intros H. refine (makedirs_go_ind (fun m m' _ _ => m ⊆ m') _ _ _ rest m parent m' H).
  - intros ? ? ? ?. apply mkdir_subseteq.
  - done.
  - intros * Hm1 _ IH. etrans; [|exact IH]. by eapply mkdir_subseteq.
Qed.

Lemma makedirs_go_wf m parent rest m' :
  wf m -> Forall (fun n => valid_name n = true) rest ->
  makedirs_go m parent rest = Ok m' -> wf m'.
Proof.
  intros Hwf Hv H. revert Hwf Hv.
  refine (makedirs_go_ind (fun m m' _ rest => wf m -> Forall (fun n => valid_name n = true) rest -> wf m')
    _ _ _ rest m parent m' H).
  - intros ? ? ? ? Hmk Hwf [Hn _]%Forall_cons. eapply mkdir_wf; [done| |by rewrite last_last|done].
    by destruct parent0.
  - intros * _ _ IH Hwf [_ Hv]%Forall_cons. by apply IH.
  - intros * Hmk _ IH Hwf [Hn Hv]%Forall_cons. apply IH; [|done].
    eapply mkdir_wf; [done| |by rewrite last_last|done]. by destruct parent0.
Qed.
End Makedirs.

Lemma makedirs_Ok m r m' :
  makedirs m r = Ok m' -> m ⊆ m' /\ m' !! r = Some (Dir default_dir_perms).
Proof.
  intros H. split; [by eapply makedirs_go_subseteq|].
  by apply makedirs_go_leaf in H.
Qed.

Lemma makedirs_wf m r m' :
  wf m -> Forall (fun n => valid_name n = true) r -> makedirs m r = Ok m' -> wf m'.
Proof. apply makedirs_go_wf. Qed.

(** [os.makedirs] on an existing path raises [FileExistsError], whatever
    the path is. *)
Lemma makedirs_exists m r nd :
  wf m -> m !! r = Some nd -> makedirs m r = Raise (FileExistsError r).
Proof.
  intros Hwf Hr. unfold makedirs.
  assert (Hgen : forall parent rest, parent ++ rest = r -> makedirs_go m parent rest = Raise (FileExistsError r)).
  { intros parent rest. revert parent. induction rest as [|n [|x rest] IH]; intros parent Heq; simpl.
    - by rewrite app_nil_r in Heq; subst.
    - unfold mkdir. subst. by rewrite Hr.
    - destruct (wf_ancestor m (parent ++ [n]) (x :: rest) nd Hwf) as [Hd _];
        [rewrite <- app_assoc; cbn; by rewrite Heq|done|].
      apply is_dir_Some in Hd as [p ->]. apply IH. rewrite <- app_assoc. exact Heq. }
  by apply Hgen.
Qed.

Lemma ancestors_writable_spec m r :
  ancestors_writable m r = true <-> forall i, i < length r -> usable_or_missing m (take i r) = true.
Proof.
  unfold ancestors_writable. rewrite forallb_forall. setoid_rewrite in_seq. split.
  - intros H i Hi. apply H. lia.
  - intros H i Hi. apply H. lia.
Qed.

(** [os.makedirs] completes on a missing path whose existing proper
    ancestors are all writable, traversable directories. *)
Lemma makedirs_go_succeeds m r parent rest :
  parent ++ rest = r -> rest <> [] -> m !! r = None ->
  (exists p, m !! parent = Some (Dir p) /\ can_write p && can_exec p = true) ->
  (forall j, length parent < j < length r -> usable_or_missing m (take j r) = true) ->
  exists m', makedirs_go m parent rest = Ok m'.
Proof.
  revert m parent. induction rest as [|n rest IH]; intros m parent Hr Hne Hnone Hp Hanc; [done|].
  destruct rest as [|x rest].
  - simpl. unfold mkdir. subst r. rewrite Hnone, removelast_last.
    destruct Hp as (p & -> & Hw). rewrite Hw. by eexists.
  - simpl. assert (Hrl : removelast (parent ++ [n]) = parent) by apply removelast_last.
    remember (parent ++ [n]) as q eqn:Hqdef.
    assert (Hlq : length q = length parent + 1) by (subst q; rewrite length_app; simpl; lia).
    assert (Hqr : q ++ x :: rest = r) by (subst q r; by rewrite <- app_assoc).
    assert (Hlen : length r = length q + S (length rest)) by (rewrite <- Hqr, length_app; simpl; lia).
    assert (Hq : take (length q) r = q) by (rewrite <- Hqr; apply take_app_length).
    assert (Hu : usable_or_missing m q = true) by (rewrite <- Hq; apply Hanc; lia).
    assert (Hanc' : forall j, length q < j < length r -> usable_or_missing m (take j r) = true)
      by (intros j Hj; apply Hanc; lia).
    unfold usable_or_missing in Hu. destruct (m !! q) as [[pq|cq]|] eqn:Eq; [|done|].
    + apply IH; eauto; done.
    + unfold mkdir. rewrite Eq, Hrl. destruct Hp as (p & -> & ->). simpl.
      apply IH; [done|done| | |].
      * rewrite lookup_insert_ne; [done|]. intros ->. lia.
      * exists default_dir_perms. by rewrite lookup_insert_eq.
      * intros j Hj. unfold usable_or_missing. rewrite lookup_insert_ne; [by apply Hanc'|].
        intros Hjq. apply (f_equal length) in Hjq. rewrite length_take in Hjq. lia.
Qed.

Lemma makedirs_succeeds m r :
  wf m -> m !! r = None -> ancestors_writable m r = true -> exists m', makedirs m r = Ok m'.
Proof.
  intros Hwf Hr Ha. pose proof (proj1 (ancestors_writable_spec m r) Ha) as Hi. clear Ha. rename Hi into Ha.
  destruct Hwf as [Hroot _]. apply is_dir_Some in Hroot as [p Hp].
  destruct r as [|n r]; [by rewrite Hp in Hr|].
  apply (makedirs_go_succeeds m (n :: r) [] (n :: r)); [done|done|done| |].
  - specialize (Ha 0 ltac:(simpl; lia)). simpl in Ha. unfold usable_or_missing in Ha.
    rewrite Hp in Ha. eauto.
  - intros j Hj. apply Ha. lia.
Qed.

(** ** Opening a file for writing *)

Lemma open_w_Ok m r c m' :
  open_w m r c = Ok m' ->
  m' = <[r := File c]> m /\
  ((exists c0, m !! r = Some (File c0)) \/
   (m !! r = None /\ exists p, m !! removelast r = Some (Dir p) /\ can_write p && can_exec p = true)).
Proof.
  unfold open_w. destruct (m !! r) as [[p|c0]|]; [done| intros [= <-]; eauto |].
  destruct (m !! removelast r) as [[p|c0]|]; try done.
  destruct (can_write p && can_exec p) eqn:E; [|done]. intros [= <-]. eauto 10.
Qed.

Lemma open_w_wf m r c m' :
  wf m -> r <> [] -> valid_name (List.last r "") = true -> open_w m r c = Ok m' -> wf m'.
Proof.
  intros Hwf Hne Hv (-> & Hcase)%open_w_Ok.
  apply wf_insert; [done|done| |].
  - intros _. split; [done|]. destruct Hcase as [[c0 Hc0]|(_ & p & Hp & _)].
    + by destruct (wf_parent m r _ Hwf Hc0 Hne).
    + apply is_dir_Some. eauto.
  - unfold is_dir. destruct Hcase as [[c0 ->]|[-> _]]; done.
Qed.

(** Rewriting an existing regular file keeps the tree well formed. *)
Lemma wf_insert_file m r c0 c :
  wf m -> m !! r = Some (File c0) -> wf (<[r := File c]> m).
Proof.
  intros Hwf Hr. destruct (decide (r = [])) as [->|Hne].
  - destruct Hwf as [Hroot _]. unfold is_dir in Hroot. by rewrite Hr in Hroot.
  - apply wf_insert; [done|done| |].
    + intros _. by destruct (wf_parent m r _ Hwf Hr Hne).
    + unfold is_dir. by rewrite Hr.
Qed.

Lemma check_directory_dir m r rd w x :
  m !! r = Some (Dir default_dir_perms) -> check_directory m r rd w x = true.
Proof. unfold check_directory. intros ->. simpl. by rewrite !orb_true_r. Qed.

End FileSys.
