(* ===== verification/Gradebook.v ===== *)
(** * The gradebook the command reads its students from

    [nbgrader.api.Gradebook] is outside this repository; the command uses
    it as a context manager (line 107) and reads [gb.students] (line 108).
    [GradebookApi] states what it promises: a connection for a course
    that may fail with a database error, and the ids of the students,
    which are the primary key of the student table and so distinct.
    [ListGradebook] is a concrete database satisfying it. *)

From S2P Require Import Prelude.

Class GradebookApi (D : Type) := {
  (** [Gradebook(db_url, course_id)]. *)
  gb_connect : D -> string -> string -> outcome unit;
  (** [[s.id for s in gb.students]]. *)
  gb_student_ids : D -> string -> string -> outcome (list string);
  gb_student_ids_nodup : forall d url course ids,
    gb_student_ids d url course = Ok ids -> NoDup ids
}.

Module ListGradebook.

(** A database that is reachable or not, holding its students in the
    order the query returns them. *)
Record database := mk_database {
  db_reachable : bool;
  db_students : list string;
  db_students_nodup : bool_decide (NoDup db_students) = true
}.

Definition connect (d : database) (url course : string) : outcome unit :=
  if db_reachable d then Ok tt else Raise (DatabaseError url).

Definition student_ids (d : database) (url course : string) : outcome (list string) :=
  if db_reachable d then Ok (db_students d) else Raise (DatabaseError url).

Lemma student_ids_nodup d url course ids : student_ids d url course = Ok ids -> NoDup ids.
Proof.
  unfold student_ids. destruct (db_reachable d); [|done]. intros [= <-].
  apply (proj1 (bool_decide_eq_true _)), (db_students_nodup d).
Qed.

#[global] Instance list_gradebook : GradebookApi database :=
  { gb_connect := connect; gb_student_ids := student_ids;
    gb_student_ids_nodup := student_ids_nodup }.

End ListGradebook.
