(* ===== verification/ZipArchive.v ===== *)
(** * The zip archive writer

    [zipfile.ZipFile(path, 'w', ZIP_DEFLATED)] (line 107), [archive.write]
    (lines 116 and 122) and the [close] its context manager performs on
    exit.  Library code, modelled from the spec and the Python
    documentation: opening truncates or creates the file; each write reads
    the source path and appends one entry under the given name (a
    directory becomes a data-less entry); closing stores the entries, in
    order, as the file's content.  Compression is not modelled. *)

From S2P Require Import Prelude PyPath FileSys.
Import FileSys.

Module ZipFile.

Definition entry : Type := (string * option content)%type.

Record zipfile := mk_zipfile { zf_path : list string; zf_entries : list entry }.

(** What [archive.write] stores for the node at a path. *)
Definition payload (m : fs) (r : list string) : option content :=
  match m !! r with Some (File c) => Some c | _ => None end.

Definition zip_open (m : fs) (r : list string) : outcome (fs * zipfile) :=
  obind (open_w m r (ZipData [])) (fun m' => Ok (m', mk_zipfile r [])).

Definition zip_write (m : fs) (z : zipfile) (src : list string) (arcname : string)
  : outcome zipfile :=
  match m !! src with
  | Some _ => Ok (mk_zipfile (zf_path z) (zf_entries z ++ [(arcname, payload m src)]))
  | None => Raise (FileNotFoundError src)
  end.

Definition zip_close (m : fs) (z : zipfile) : fs :=
  <[zf_path z := File (ZipData (zf_entries z))]> m.

Lemma zip_write_Some m z src arcname nd :
  m !! src = Some nd ->
  zip_write m z src arcname = Ok (mk_zipfile (zf_path z) (zf_entries z ++ [(arcname, payload m src)])).
Proof. unfold zip_write. by intros ->. Qed.

Lemma zip_open_Ok m r m' z :
  zip_open m r = Ok (m', z) -> open_w m r (ZipData []) = Ok m' /\ z = mk_zipfile r [].
Proof. unfold zip_open. destruct (open_w _ _ _); simpl; [|done]. by intros [= -> <-]. Qed.

(** A successful [zip_open] is determined by whether it succeeds: the new
    tree is the one [open_w] returns and the archive starts empty. *)
Lemma zip_open_succeeds m r :
  match zip_open m r with Ok _ => true | Raise _ => false end = true ->
  zip_open m r = Ok (match zip_open m r with Ok (m', _) => m' | Raise _ => ∅ end, mk_zipfile r []).
Proof. unfold zip_open. by destruct (open_w _ _ _). Qed.

End ZipFile.
