(* ===== verification/App.v ===== *)
(** * [ZipReleaseFeedbackApp]

    The command of [src/nbgrader/apps/zipreleasefeedbackapp.py]: its
    configurable traits, [initialize] (lines 78-96), [_mkdirs_if_missing]
    (lines 98-101) and [start] (lines 103-122), as programs of the
    state-and-exception monad [PyM] over the process state [world]. *)

From S2P Require Import Prelude PyPath FileSys Gradebook ZipArchive.
Import PyStr PosixPath FileSys ZipFile.

Module ZipReleaseFeedbackApp.

(** ** Process state *)

Record world := mk_world {
  w_fs : fs;
  w_cwd : string;                  (** [os.getcwd()], an absolute path *)
  w_sys_path : list string;        (** [sys.path] *)
  w_log : list (string * string);  (** log records: level and message *)
  w_gb_open : bool;                (** the gradebook session is open *)
  w_zip : option zipfile           (** the archive being written *)
}.

Definition cwd_of (w : world) : list string := resolve [] (w_cwd w).

Definition set_fs (m : fs) (w : world) : world :=
  mk_world m (w_cwd w) (w_sys_path w) (w_log w) (w_gb_open w) (w_zip w).
Definition set_sys_path (l : list string) (w : world) : world :=
  mk_world (w_fs w) (w_cwd w) l (w_log w) (w_gb_open w) (w_zip w).
Definition add_log (lvl msg : string) (w : world) : world :=
  mk_world (w_fs w) (w_cwd w) (w_sys_path w) (w_log w ++ [(lvl, msg)]) (w_gb_open w) (w_zip w).
Definition set_gb_open (b : bool) (w : world) : world :=
  mk_world (w_fs w) (w_cwd w) (w_sys_path w) (w_log w) b (w_zip w).
Definition set_zip (z : option zipfile) (w : world) : world :=
  mk_world (w_fs w) (w_cwd w) (w_sys_path w) (w_log w) (w_gb_open w) z.

Abbreviation M := (PyM world).

(** ** Configuration (lines 42-76) and the course directory *)

Record config := mk_config {
  dirname_suffix : string;
  solution_prefix : string;
  output_directory : string;
  include_source : bool
}.

Definition default_config : config :=
  mk_config "_assignsubmission_file_" "solution-" "uploaded" true.

(** The fields of [self.coursedir] the command reads. *)
Record coursedir := mk_coursedir {
  root : string;
  feedback_directory : string;
  source_directory : string;
  assignment_id : string;
  course_id : string;
  db_url : string
}.

(** [CourseDirectory.format_path] with the default directory structure
    ["{nbgrader_step}/{student_id}/{assignment_id}"]. *)
Definition format_path (cd : coursedir) (step student_id assignment : string) : string :=
  join (root cd) (step ++ "/" ++ student_id ++ "/" ++ assignment).

Record app := mk_app {
  app_config : config;
  app_coursedir : coursedir;
  extra_args : list string
}.

Definition set_assignment_id (a : app) (aid : string) : app :=
  let cd := app_coursedir a in
  mk_app (app_config a)
    (mk_coursedir (root cd) (feedback_directory cd) (source_directory cd) aid
                  (course_id cd) (db_url cd))
    (extra_args a).

(** ** Primitive effects *)

(** [self.fail(msg)]: log the error and exit with status 1. *)
Definition fail {A} (msg : string) : M A :=
  let* _ := modify (add_log "ERROR" msg) in raise (SystemExit 1).

(** Run a file-system mutation on the current tree. *)
Definition fs_update (f : list string -> fs -> outcome fs) : M unit :=
  fun w => match f (cwd_of w) (w_fs w) with
           | Ok m => (set_fs m w, Ok tt)
           | Raise e => (w, Raise e)
           end.

(** ** [initialize] (lines 79-96) *)

(** Lines 80-83: put the working directory first on [sys.path]. *)
Definition add_cwd_to_sys_path : M unit :=
  fun w => if bool_decide (w_cwd w ∈ w_sys_path w) then (w, Ok tt)
           else (set_sys_path (w_cwd w :: w_sys_path w) w, Ok tt).

(** Lines 88-96: the assignment comes from the single positional
    argument, or must already be configured. *)
Definition set_assignment (a : app) : M app :=
  match extra_args a with
  | [aid] => ret (set_assignment_id a aid)
  | args =>
      if bool_decide (2 < length args) then fail "Too many arguments"
      else if bool_decide (assignment_id (app_coursedir a) = "") then
        fail ("Must provide assignment name:" ++
              String "010"%char "nbgrader zip_release_feedbakc ASSIGNMENT")
      else ret a
  end.

(** [super().initialize(argv)] parses [argv] into [extra_args] and the
    configuration; it is the base class's and is not modelled. *)
Definition initialize (a : app) : M app :=
  let* _ := add_cwd_to_sys_path in set_assignment a.

(** ** [_mkdirs_if_missing] (lines 98-101) *)

Definition mkdirs_if_missing (path : string) : M unit :=
  fun w =>
    let r := resolve (cwd_of w) path in
    if check_directory (w_fs w) r false true true then (w, Ok tt)
    else fs_update (fun _ m => makedirs m r)
           (add_log "WARNING" ("Directory not found. Creating: " ++ path) w).

(** ** The archive and the gradebook as context managers (line 107) *)

(** [archive.write(filename, arcname=...)]. *)
Definition archive_write (filename arcname : string) : M unit :=
  fun w => match w_zip w with
           | None => (w, Raise (ValueError "Attempt to write to ZIP archive that was already closed"))
           | Some z =>
               match zip_write (w_fs w) z (resolve (cwd_of w) filename) arcname with
               | Ok z' => (set_zip (Some z') w, Ok tt)
               | Raise e => (w, Raise e)
               end
           end.

Definition archive_open (path : string) : M unit :=
  fun w => match zip_open (w_fs w) (resolve (cwd_of w) path) with
           | Ok (m, z) => (set_zip (Some z) (set_fs m w), Ok tt)
           | Raise e => (w, Raise e)
           end.

Definition archive_close : M unit :=
  fun w => match w_zip w with
           | Some z => (set_zip None (set_fs (zip_close (w_fs w) z) w), Ok tt)
           | None => (w, Ok tt)
           end.

(** [with zipfile.ZipFile(path, 'w', ...) as archive: body]. *)
Definition with_archive {A} (path : string) (body : M A) : M A :=
  let* _ := archive_open path in try_finally body archive_close.

Section WithGradebook.
Context {D : Type} `{GradebookApi D} (db : D).

(** [with Gradebook(db_url, course_id) as gb: body]. *)
Definition with_gradebook {A} (url course : string) (body : M A) : M A :=
  let* _ := lift (gb_connect db url course) in
  let* _ := modify (set_gb_open true) in
  try_finally body (modify (set_gb_open false)).

(** ** [start] (lines 103-122) *)

Definition is_feedback (f : string) : bool := endswith f ".html".
Definition is_notebook (f : string) : bool := endswith f ".ipynb".

(** Lines 110-112. *)
Definition feedback_files (a : app) (w : world) (student_id : string) : list string :=
  let cd := app_coursedir a in
  let source_path := format_path cd (feedback_directory cd) student_id (assignment_id cd) in
  List.filter is_feedback (find_all_files (w_fs w) (cwd_of w) source_path).

(** Line 119. *)
Definition source_file_path (a : app) : string :=
  let cd := app_coursedir a in format_path cd (source_directory cd) "." (assignment_id cd).

(** Lines 120-122. *)
Definition write_sources (a : app) (dirname : string) : M unit :=
  fun w =>
    let sfp := source_file_path a in
    match listdir (w_fs w) (resolve (cwd_of w) sfp) with
    | Raise e => (w, Raise e)
    | Ok names =>
        py_for names (fun fn =>
          if is_notebook fn then
            archive_write (join sfp fn)
              (join dirname (solution_prefix (app_config a) ++ basename fn))
          else ret tt) w
    end.

(** Lines 110-122: one iteration of the loop over students. *)
Definition process_student (a : app) (student_id : string) : M unit :=
  fun w =>
    let files := feedback_files a w student_id in
    match files with
    | [] => (w, Ok tt)
    | _ =>
        let dirname := (student_id ++ dirname_suffix (app_config a))%string in
        (let* _ := py_for files (fun fn => archive_write fn (join dirname (basename fn))) in
         if include_source (app_config a) then write_sources a dirname else ret tt) w
    end.

(** The archive's path, line 107. *)
Definition archive_path (a : app) : string :=
  join (output_directory (app_config a)) (assignment_id (app_coursedir a) ++ "-feedback.zip").

Definition start (a : app) : M unit :=
  let cd := app_coursedir a in
  let* _ := mkdirs_if_missing (output_directory (app_config a)) in
  with_gradebook (db_url cd) (course_id cd)
    (with_archive (archive_path a)
      (let* students := lift (gb_student_ids db (db_url cd) (course_id cd)) in
       py_for students (process_student a))).
End WithGradebook.

(** Append entries to the open archive. *)
Definition zip_append (w : world) (es : list entry) : world :=
  set_zip (option_map (fun z => mk_zipfile (zf_path z) (zf_entries z ++ es)) (w_zip w)) w.

(** One loop iteration as a function of the file tree: the entries it
    writes, and whether it completes or raises. *)
Definition student_entries (a : app) (w : world) (student_id : string)
  : list entry * outcome unit :=
  let m := w_fs w in
  let cwd := cwd_of w in
  match feedback_files a w student_id with
  | [] => ([], Ok tt)
  | files =>
      let dirname := (student_id ++ dirname_suffix (app_config a))%string in
      let fe := map (fun fn => (join dirname (basename fn), payload m (resolve cwd fn))) files in
      if include_source (app_config a) then
        let sfp := source_file_path a in
        match listdir m (resolve cwd sfp) with
        | Ok names =>
            (fe ++ map (fun fn => (join dirname (solution_prefix (app_config a) ++ basename fn),
                                   payload m (resolve cwd (join sfp fn))))
                       (List.filter is_notebook names), Ok tt)
        | Raise e => (fe, Raise e)
        end
      else (fe, Ok tt)
  end.

(** The loop over students, stopping at the first exception. *)
Fixpoint students_entries (a : app) (w : world) (students : list string)
  : list entry * outcome unit :=
  match students with
  | [] => ([], Ok tt)
  | sid :: rest =>
      let '(es, r) := student_entries a w sid in
      match r with
      | Ok _ => let '(es', r') := students_entries a w rest in (es ++ es', r')
      | Raise e => (es, Raise e)
      end
  end.

(** The state in which the loop over students runs. *)
Definition loop_world (w1 : world) (m2 : fs) (z : zipfile) : world :=
  set_zip (Some z) (set_fs m2 (set_gb_open true w1)).

(** ** The run, step by step *)

Lemma zip_append_app w es1 es2 : zip_append (zip_append w es1) es2 = zip_append w (es1 ++ es2).
Proof.
  unfold zip_append, set_zip. destruct w as [? ? ? ? ? [z|]]; simpl; [|done].
  by rewrite app_assoc.
Qed.

Lemma zip_append_nil w : w_zip w <> None -> zip_append w [] = w.
Proof.
  unfold zip_append, set_zip. destruct w as [? ? ? ? ? [[p es]|]]; simpl; [|done].
  by rewrite app_nil_r.
Qed.

Lemma archive_write_ok fn arc w nd :
  w_zip w <> None -> w_fs w !! resolve (cwd_of w) fn = Some nd ->
  archive_write fn arc w =
    (zip_append w [(arc, payload (w_fs w) (resolve (cwd_of w) fn))], Ok tt).
Proof.
  intros Hz Hf. unfold archive_write, zip_append.
  destruct (w_zip w) as [z|]; [|done]. by rewrite (zip_write_Some _ _ _ _ nd).
Qed.

(** A loop of archive writes, some of them guarded, over paths that
    exist appends one entry per selected path, in order. *)
Lemma py_for_archive_write {A} (l : list A) (sel : A -> bool) (src : A -> string) (arc : A -> string) w :
  w_zip w <> None ->
  (forall x, In x l -> sel x = true -> is_Some (w_fs w !! resolve (cwd_of w) (src x))) ->
  py_for l (fun x => if sel x then archive_write (src x) (arc x) else ret tt) w =
    (zip_append w (map (fun x => (arc x, payload (w_fs w) (resolve (cwd_of w) (src x))))
                       (List.filter sel l)), Ok tt).
Proof.
  revert w. induction l as [|x l IH]; intros w Hz Hex; simpl.
  - by rewrite zip_append_nil.
  - unfold bind. destruct (sel x) eqn:Hs.
    + destruct (Hex x (or_introl eq_refl) Hs) as [nd Hnd].
      rewrite (archive_write_ok _ _ _ nd) by done.
      rewrite IH; [by rewrite zip_append_app| |].
      * unfold zip_append, set_zip. simpl. by destruct (w_zip w).
      * intros y Hy. apply Hex. by right.
    + apply IH; [done|]. intros y Hy. apply Hex. by right.
Qed.

Lemma feedback_files_exist a w sid fn :
  wf (w_fs w) -> In fn (feedback_files a w sid) ->
  exists c, w_fs w !! resolve (cwd_of w) fn = Some (File c).
Proof.
  intros Hwf (Hin & _)%filter_In. apply list_elem_of_In, elem_of_find_all_files in Hin
    as (rel & c & Hne & Hk & ->).
  destruct (wf_ancestor _ _ _ _ Hwf Hk Hne) as [_ Hv].
  exists c. by rewrite resolve_join_many.
Qed.

Lemma listdir_entries_exist m cwd sfp names fn :
  wf m -> listdir m (resolve cwd sfp) = Ok names -> In fn names ->
  is_Some (m !! resolve cwd (join sfp fn)).
Proof.
  intros Hwf (p & _ & _ & ->)%listdir_Ok Hin.
  apply list_elem_of_In, elem_of_children in Hin as [nd Hnd].
  destruct (wf_parent _ _ _ Hwf Hnd) as [Hv _]; [by destruct (resolve cwd sfp)|].
  rewrite last_last in Hv. rewrite resolve_join by done. by eexists.
Qed.

(** [process_student] writes exactly [student_entries] into the open
    archive and leaves everything else alone. *)
Lemma process_student_spec a sid w :
  wf (w_fs w) -> w_zip w <> None ->
  process_student a sid w =
    (zip_append w (student_entries a w sid).1, (student_entries a w sid).2).
Proof.
  intros Hwf Hz. unfold process_student, student_entries.
  destruct (feedback_files a w sid) as [|f fs'] eqn:Hfiles; [by rewrite zip_append_nil|].
  set (dn := (sid ++ _)%string).
  assert (Hfb := py_for_archive_write (f :: fs') (fun _ => true) (fun x => x)
                    (fun fn => join dn (basename fn)) w Hz).
  lazy beta iota in Hfb. rewrite filter_true in Hfb. unfold bind. rewrite Hfb.
  2: { intros x Hx _. rewrite <- Hfiles in Hx.
       destruct (feedback_files_exist a w sid x Hwf Hx). by eexists. }
  destruct (include_source (app_config a)); [|done].
  unfold write_sources. simpl.
  destruct (listdir _ _) as [names|e] eqn:Hls; [|done].
  rewrite py_for_archive_write.
  - by rewrite zip_append_app.
  - unfold zip_append, set_zip. simpl. by destruct (w_zip w).
  - intros x Hx _. by eapply listdir_entries_exist.
Qed.

Lemma students_entries_zip_append a w es l :
  students_entries a (zip_append w es) l = students_entries a w l.
Proof. induction l as [|sid l IH]; simpl; [done|]. by rewrite IH. Qed.

Lemma students_loop_spec a l w :
  wf (w_fs w) -> w_zip w <> None ->
  py_for l (process_student a) w =
    (zip_append w (students_entries a w l).1, (students_entries a w l).2).
Proof.
  revert w. induction l as [|sid l IH]; intros w Hwf Hz; simpl.
  - by rewrite zip_append_nil.
  - unfold bind. rewrite process_student_spec by done.
    destruct (student_entries a w sid) as [es [u|e]] eqn:E; simpl; [|done].
    rewrite IH; [|done|].
    + rewrite students_entries_zip_append, zip_append_app.
      by destruct (students_entries a w l).
    + unfold zip_append, set_zip. simpl. by destruct (w_zip w).
Qed.

Section Start.
Context {D : Type} `{GradebookApi D} (db : D) (a : app).

Let cd := app_coursedir a.

(** [start] when the output directory, the gradebook connection, the
    archive and the student query all succeed: the archive file holds
    the entries of the loop, both context managers have been exited,
    and the outcome is the loop's. *)
Lemma start_spec w w1 m2 ids :
  mkdirs_if_missing (output_directory (app_config a)) w = (w1, Ok tt) ->
  gb_connect db (db_url cd) (course_id cd) = Ok tt ->
  zip_open (w_fs w1) (resolve (cwd_of w1) (archive_path a)) =
    Ok (m2, mk_zipfile (resolve (cwd_of w1) (archive_path a)) []) ->
  gb_student_ids db (db_url cd) (course_id cd) = Ok ids ->
  wf m2 ->
  let res := students_entries a (loop_world w1 m2
               (mk_zipfile (resolve (cwd_of w1) (archive_path a)) [])) ids in
  start db a w =
    (mk_world (zip_close m2 (mk_zipfile (resolve (cwd_of w1) (archive_path a)) res.1))
              (w_cwd w1) (w_sys_path w1) (w_log w1) false None, res.2).
Proof.
  intros Hmk Hconn Hopen Hids Hwf res.
  unfold start. unfold bind at 1. rewrite Hmk.
  unfold with_gradebook, lift, bind. fold cd. rewrite Hconn.
  unfold modify, try_finally, with_archive, bind, archive_open. simpl.
  change (cwd_of (set_gb_open true w1)) with (cwd_of w1). rewrite Hopen.
  unfold try_finally. rewrite Hids.
  rewrite students_loop_spec; [|done|done]. unfold res, loop_world.
  by destruct (students_entries a _ ids) as [es r].
Qed.
(** [start_spec] with the loop's result named. *)
Lemma start_spec_eq w w1 m2 ids :
  mkdirs_if_missing (output_directory (app_config a)) w = (w1, Ok tt) ->
  gb_connect db (db_url cd) (course_id cd) = Ok tt ->
  zip_open (w_fs w1) (resolve (cwd_of w1) (archive_path a)) =
    Ok (m2, mk_zipfile (resolve (cwd_of w1) (archive_path a)) []) ->
  gb_student_ids db (db_url cd) (course_id cd) = Ok ids ->
  wf m2 ->
  exists es r,
    students_entries a (loop_world w1 m2 (mk_zipfile (resolve (cwd_of w1) (archive_path a)) [])) ids
      = (es, r) /\
    start db a w =
      (mk_world (zip_close m2 (mk_zipfile (resolve (cwd_of w1) (archive_path a)) es))
                (w_cwd w1) (w_sys_path w1) (w_log w1) false None, r).
Proof.
  intros. rewrite (start_spec w w1 m2 ids) by done.
  destruct (students_entries _ _ ids) as [es r]. by exists es, r.
Qed.
End Start.

Lemma cwd_valid w : Forall (fun n => valid_name n = true) (cwd_of w).
Proof. apply resolve_valid. constructor. Qed.

Lemma last_valid (r : list string) :
  r <> [] -> Forall (fun n => valid_name n = true) r -> valid_name (List.last r "") = true.
Proof.
  intros Hne Hv. destruct (exists_last Hne) as (r' & n & ->). rewrite last_last.
  by apply Forall_app in Hv as [_ [? _]%Forall_cons].
Qed.

(** ** Facts the properties share *)

Lemma mkdirs_if_missing_Ok path w w1 :
  mkdirs_if_missing path w = (w1, Ok tt) ->
  check_directory (w_fs w1) (resolve (cwd_of w) path) false true true = true
  /\ w_fs w ⊆ w_fs w1 /\ w_cwd w1 = w_cwd w /\ w_zip w1 = w_zip w
  /\ w_gb_open w1 = w_gb_open w /\ w_sys_path w1 = w_sys_path w.
Proof.
  unfold mkdirs_if_missing, fs_update.
  destruct (check_directory _ _ _ _ _) eqn:Hc; [intros [= <-]; done|]. simpl.
  destruct (makedirs (w_fs w) _) as [m'|e] eqn:E; [|done]. intros [= <-]. simpl.
  apply makedirs_Ok in E as [Hsub Hr]. split; [|done]. by apply check_directory_dir.
Qed.

Lemma mkdirs_if_missing_noop path w :
  check_directory (w_fs w) (resolve (cwd_of w) path) false true true = true ->
  mkdirs_if_missing path w = (w, Ok tt).
Proof. unfold mkdirs_if_missing. by intros ->. Qed.

Lemma student_entries_ext a w v sid :
  w_fs w = w_fs v -> w_cwd w = w_cwd v -> student_entries a w sid = student_entries a v sid.
Proof. intros Hf Hc. unfold student_entries, feedback_files, cwd_of. by rewrite Hf, Hc. Qed.

Lemma students_entries_ext a w v l :
  w_fs w = w_fs v -> w_cwd w = w_cwd v -> students_entries a w l = students_entries a v l.
Proof.
  intros Hf Hc. induction l as [|sid l IH]; simpl; [done|].
  by rewrite (student_entries_ext a w v sid Hf Hc), IH.
Qed.

Lemma students_entries_in a w l e :
  In e (students_entries a w l).1 -> exists sid, In sid l /\ In e (student_entries a w sid).1.
Proof.
  induction l as [|sid l IH]; simpl; [done|].
  destruct (student_entries a w sid) as [es [u|err]] eqn:E; simpl.
  - destruct (students_entries a w l) as [es' r'] eqn:E'. simpl. rewrite in_app_iff.
    intros [He|He].
    + exists sid. rewrite E. auto.
    + destruct (IH He) as (s & Hs & Hin). exists s. auto.
  - intros He. exists sid. rewrite E. auto.
Qed.

Section StartInv.
Context {D : Type} `{GradebookApi D} (db : D) (a : app).

(** A run that completes passed every step. *)
Lemma start_Ok_inv w w' :
  start db a w = (w', Ok tt) ->
  exists w1 m2 ids,
    mkdirs_if_missing (output_directory (app_config a)) w = (w1, Ok tt)
    /\ gb_connect db (db_url (app_coursedir a)) (course_id (app_coursedir a)) = Ok tt
    /\ zip_open (w_fs w1) (resolve (cwd_of w1) (archive_path a)) =
         Ok (m2, mk_zipfile (resolve (cwd_of w1) (archive_path a)) [])
    /\ gb_student_ids db (db_url (app_coursedir a)) (course_id (app_coursedir a)) = Ok ids.
Proof.
  unfold start, bind at 1.
  destruct (mkdirs_if_missing _ w) as [w1 [[]|e]] eqn:Hmk; [|done].
  unfold with_gradebook, lift, bind at 1.
  destruct (gb_connect _ _ _) as [[]|e] eqn:Hc; [|done].
  unfold modify, bind at 1, try_finally, with_archive, bind at 1, archive_open. simpl.
  change (cwd_of (set_gb_open true w1)) with (cwd_of w1).
  destruct (zip_open _ _) as [[m2 z]|e] eqn:Hz; [|done].
  pose proof Hz as Hz'. apply zip_open_Ok in Hz' as [_ ->].
  unfold try_finally, bind at 1, lift.
  destruct (gb_student_ids _ _ _) as [ids|e] eqn:Hids.
  - intros _. by exists w1, m2, ids.
  - unfold archive_close. simpl. done.
Qed.
End StartInv.

(** ** Error behaviour and resources (spec sections 4.2, 5 and 7) *)

Section StartErrors.
Context {D : Type} `{GradebookApi D} (db : D) (a : app).

Lemma start_ids_fail w w1 m2 e :
  mkdirs_if_missing (output_directory (app_config a)) w = (w1, Ok tt) ->
  gb_connect db (db_url (app_coursedir a)) (course_id (app_coursedir a)) = Ok tt ->
  zip_open (w_fs w1) (resolve (cwd_of w1) (archive_path a)) =
    Ok (m2, mk_zipfile (resolve (cwd_of w1) (archive_path a)) []) ->
  gb_student_ids db (db_url (app_coursedir a)) (course_id (app_coursedir a)) = Raise e ->
  start db a w =
    (mk_world (zip_close m2 (mk_zipfile (resolve (cwd_of w1) (archive_path a)) []))
              (w_cwd w1) (w_sys_path w1) (w_log w1) false None, Raise e).
Proof.
  intros Hmk Hconn Hopen Hids. unfold start, bind at 1. rewrite Hmk.
  unfold with_gradebook, lift, bind. rewrite Hconn.
  unfold modify, try_finally, with_archive, bind, archive_open. simpl.
  change (cwd_of (set_gb_open true w1)) with (cwd_of w1). rewrite Hopen.
  unfold try_finally. by rewrite Hids.
Qed.

(** C3. Guaranteed release: once the gradebook is connected and the
    archive is open, the run ends in one determined state whatever
    happens next.  If the student query raises, the archive is closed
    empty; otherwise it is closed holding exactly the entries the loop
    wrote before completing or raising.  In both cases the gradebook
    session is closed, no archive is open, the outcome is the query's
    or the loop's, and nothing else of the state changed. *)
Theorem start_releases_resources w w1 m2 :
  mkdirs_if_missing (output_directory (app_config a)) w = (w1, Ok tt) ->
  gb_connect db (db_url (app_coursedir a)) (course_id (app_coursedir a)) = Ok tt ->
  zip_open (w_fs w1) (resolve (cwd_of w1) (archive_path a)) =
    Ok (m2, mk_zipfile (resolve (cwd_of w1) (archive_path a)) []) ->
  wf m2 ->
  let z0 := mk_zipfile (resolve (cwd_of w1) (archive_path a)) [] in
  let res := match gb_student_ids db (db_url (app_coursedir a)) (course_id (app_coursedir a)) with
             | Ok ids => students_entries a (loop_world w1 m2 z0) ids
             | Raise e => ([], Raise e)
             end in
  start db a w =
    (mk_world (zip_close m2 (mk_zipfile (resolve (cwd_of w1) (archive_path a)) res.1))
              (w_cwd w1) (w_sys_path w1) (w_log w1) false None, res.2).
Proof.
  intros Hmk Hconn Hopen Hwf z0 res. unfold res.
  destruct (gb_student_ids db _ _) as [ids|e] eqn:Hids.
  - by apply (start_spec db a w w1 m2 ids).
  - by apply (start_ids_fail w w1 m2 e).
Qed.

(** C11. A gradebook that cannot be reached aborts the run right after
    the output directory is prepared: no archive is opened and no
    session is left open. *)
Theorem start_connect_fails w w1 e :
  mkdirs_if_missing (output_directory (app_config a)) w = (w1, Ok tt) ->
  gb_connect db (db_url (app_coursedir a)) (course_id (app_coursedir a)) = Raise e ->
  start db a w = (w1, Raise e).
Proof.
  intros Hmk Hconn. unfold start, bind at 1. rewrite Hmk.
  unfold with_gradebook, lift, bind. by rewrite Hconn.
Qed.

(** C12. An archive that cannot be created aborts the run with the
    gradebook session closed and nothing else changed. *)
Theorem start_open_fails w w1 e :
  mkdirs_if_missing (output_directory (app_config a)) w = (w1, Ok tt) ->
  gb_connect db (db_url (app_coursedir a)) (course_id (app_coursedir a)) = Ok tt ->
  zip_open (w_fs w1) (resolve (cwd_of w1) (archive_path a)) = Raise e ->
  start db a w = (set_gb_open false w1, Raise e).
Proof.
  intros Hmk Hconn Hopen. unfold start, bind at 1. rewrite Hmk.
  unfold with_gradebook, lift, bind. rewrite Hconn.
  unfold modify, try_finally, with_archive, bind, archive_open. simpl.
  change (cwd_of (set_gb_open true w1)) with (cwd_of w1). by rewrite Hopen.
Qed.
End StartErrors.

(** C8. [_mkdirs_if_missing] on a path that exists but fails the
    writable-and-traversable check does not report the permission
    problem: it logs "Directory not found" and [os.makedirs] raises
    [FileExistsError]. *)
Theorem mkdirs_if_missing_exists_unusable path w nd :
  wf (w_fs w) ->
  w_fs w !! resolve (cwd_of w) path = Some nd ->
  check_directory (w_fs w) (resolve (cwd_of w) path) false true true = false ->
  mkdirs_if_missing path w =
    (add_log "WARNING" ("Directory not found. Creating: " ++ path) w,
     Raise (FileExistsError (resolve (cwd_of w) path))).
Proof.
  intros Hwf Hr Hchk. unfold mkdirs_if_missing, fs_update. rewrite Hchk. simpl.
  by rewrite (makedirs_exists _ _ nd).
Qed.

(** C9. [_mkdirs_if_missing] terminates normally on a missing output
    directory whose existing proper ancestors are writable, traversable
    directories: [os.makedirs] then creates every missing level, and the
    output directory is afterwards a writable, traversable directory. *)
Theorem mkdirs_if_missing_succeeds path w :
  wf (w_fs w) -> w_fs w !! resolve (cwd_of w) path = None ->
  ancestors_writable (w_fs w) (resolve (cwd_of w) path) = true ->
  exists w', mkdirs_if_missing path w = (w', Ok tt)
             /\ check_directory (w_fs w') (resolve (cwd_of w) path) false true true = true.
Proof.
  intros Hwf Hr Ha.
  assert (Hex : exists w', mkdirs_if_missing path w = (w', Ok tt)).
  { unfold mkdirs_if_missing, fs_update.
    destruct (check_directory _ _ _ _ _); [eauto|]. simpl.
    destruct (makedirs_succeeds _ _ Hwf Hr Ha) as [m' ->]. eauto. }
  destruct Hex as [w' Hw']. exists w'. split; [done|]. by apply mkdirs_if_missing_Ok in Hw' as [? _].
Qed.

(** C10. [_mkdirs_if_missing] (spec 4.1 and section 8, property 6): a
    directory that passes the check is left alone, with nothing logged;
    otherwise, when the call completes, a warning has been logged, the
    directory exists as a fresh directory the user may write to and
    traverse, and nothing that existed before has changed. *)
Theorem mkdirs_if_missing_spec path w w' :
  mkdirs_if_missing path w = (w', Ok tt) ->
  let r := resolve (cwd_of w) path in
  if check_directory (w_fs w) r false true true then w' = w
  else w_log w' = w_log w ++ [("WARNING", "Directory not found. Creating: " ++ path)%string]
       /\ w_fs w' !! r = Some (Dir default_dir_perms) /\ w_fs w ⊆ w_fs w'.
Proof.
  unfold mkdirs_if_missing, fs_update. simpl.
  destruct (check_directory _ _ _ _ _); [by intros [= <-]|].
  destruct (makedirs _ _) as [m'|e] eqn:E; [|done]. intros [= <-]. simpl.
  apply makedirs_Ok in E as [Hsub Hr]. done.
Qed.

(** C16. Students without feedback documents contribute nothing to the
    archive (spec section 8, property 1): the loop over the gradebook's
    students writes what the loop over only the students with feedback
    writes, and completes or raises alike. *)
Theorem students_without_feedback_skipped a w ids :
  students_entries a w ids =
  students_entries a w (List.filter (fun sid => negb (bool_decide (feedback_files a w sid = []))) ids).
Proof.
  induction ids as [|sid ids IH]; [done|]. simpl.
  destruct (bool_decide (feedback_files a w sid = [])) eqn:E; simpl.
  - apply bool_decide_eq_true in E. unfold student_entries at 1. rewrite E. simpl.
    rewrite <- IH. by destruct (students_entries a w ids).
  - by rewrite IH.
Qed.

(** ** [initialize] *)

Lemma add_cwd_to_sys_path_spec w :
  add_cwd_to_sys_path w =
    (set_sys_path (if bool_decide (w_cwd w ∈ w_sys_path w) then w_sys_path w
                   else w_cwd w :: w_sys_path w) w, Ok tt).
Proof. unfold add_cwd_to_sys_path. case_bool_decide; [by destruct w|done]. Qed.

(** C17. When [initialize] completes, the working directory is on
    [sys.path], the configuration and arguments are unchanged, and the
    assignment is the single positional argument if there is one;
    otherwise there were at most two arguments, which are ignored, and an
    assignment was already configured. *)
Theorem initialize_ok a w w' a' :
  initialize a w = (w', Ok a') ->
  w_cwd w' ∈ w_sys_path w' /\ app_config a' = app_config a /\ extra_args a' = extra_args a /\
  match extra_args a with
  | [aid] => assignment_id (app_coursedir a') = aid
  | args => length args <= 2 /\ app_coursedir a' = app_coursedir a
            /\ assignment_id (app_coursedir a) <> ""
  end.
Proof.
  unfold initialize, bind. rewrite add_cwd_to_sys_path_spec.
  set (w1 := set_sys_path _ w).
  assert (Hin : w_cwd w1 ∈ w_sys_path w1) by (simpl; case_bool_decide; set_solver).
  unfold set_assignment, fail, bind, modify, raise.
  destruct (extra_args a) as [|x [|y [|z l]]] eqn:E.
  - case_bool_decide; [simpl in *; lia|]. case_bool_decide; [done|].
    intros [= <- <-]. split_and!; try done; simpl; lia.
  - intros [= <- <-]. by split_and!.
  - case_bool_decide; [simpl in *; lia|]. case_bool_decide; [done|].
    intros [= <- <-]. split_and!; try done; simpl; lia.
  - case_bool_decide; [done|simpl in *; lia].
Qed.

(** C19. Two positional arguments with an assignment already configured
    are accepted and ignored: line 88 handles one argument, line 90 only
    more than two, so [initialize] completes with the application
    unchanged (spec section 6 requires exactly one). *)
Theorem initialize_two_args_accepted a w :
  length (extra_args a) = 2 -> assignment_id (app_coursedir a) <> "" ->
  initialize a w = ((add_cwd_to_sys_path w).1, Ok a).
Proof.
  intros Hlen Haid. unfold initialize, bind. rewrite add_cwd_to_sys_path_spec. simpl.
  unfold set_assignment.
  destruct (extra_args a) as [|x [|y [|z l]]]; simpl in Hlen; try lia.
  rewrite bool_decide_false by (simpl; lia). by rewrite bool_decide_false by done.
Qed.

(** C18. With no positional argument and no configured assignment, or
    with more than two arguments, [initialize] logs an error and exits
    with status 1. *)
Theorem initialize_fails a w :
  (extra_args a = [] /\ assignment_id (app_coursedir a) = "") \/ 2 < length (extra_args a) ->
  (initialize a w).2 = Raise (SystemExit 1) /\
  exists msg, w_log (initialize a w).1 = w_log w ++ [("ERROR", msg)].
Proof.
  intros Hcase. unfold initialize, bind. rewrite add_cwd_to_sys_path_spec.
  unfold set_assignment, fail, bind, modify, raise.
  destruct Hcase as [[-> Haid]|Hlen].
  - rewrite bool_decide_false by (simpl; lia). rewrite bool_decide_true by done. simpl. eauto.
  - destruct (extra_args a) as [|x [|y [|z l]]]; simpl in Hlen; try lia.
    rewrite bool_decide_true by (simpl; lia). simpl. eauto.
Qed.

End ZipReleaseFeedbackApp.
