(* ===== verification/Scenario.v ===== *)
(** * A concrete course

    The inputs of the spec's worked example (section 8, property 7): the
    file tree, the gradebook and the command's configuration, and one
    variation of them per error path, used to run the model by evaluation
    and to instantiate the theorems; and the run on two feedback
    documents of the same base name, whose archive holds two members of
    the same name. *)

From S2P Require Import Prelude PyPath FileSys Gradebook ZipArchive App.
Import PyStr PosixPath FileSys ZipFile ZipReleaseFeedbackApp.

(** ** A concrete course (spec section 8, property 7)

    Students [alice] and [bob]; only [alice] has a feedback document;
    the assignment [hw1] has one source notebook. *)
Module Scenario.
Import ListGradebook.

Definition dir : node := Dir default_dir_perms.

Definition tree : fs := list_to_map
  [([], dir); (["course"], dir); (["course"; "feedback"], dir);
   (["course"; "feedback"; "alice"], dir); (["course"; "feedback"; "alice"; "hw1"], dir);
   (["course"; "feedback"; "alice"; "hw1"; "report.html"], File (Bytes "<html/>"));
   (["course"; "source"], dir); (["course"; "source"; "hw1"], dir);
   (["course"; "source"; "hw1"; "hw1.ipynb"], File (Bytes "{}"))].

Definition world0 : world := mk_world tree "/course" [] [] false None.

Definition db0 : database := mk_database true ["alice"; "bob"] eq_refl.

Definition cd0 : coursedir :=
  mk_coursedir "/course" "feedback" "source" "hw1" "course101" "sqlite:///gradebook.db".

Definition app0 : app := mk_app default_config cd0 ["hw1"].

(** The same run with [include_source = False]. *)
Definition app_no_source : app :=
  mk_app (mk_config "_assignsubmission_file_" "solution-" "uploaded" false) cd0 ["hw1"].

(** The state after [_mkdirs_if_missing], and the tree after the archive
    is opened. *)
Definition world1 : world := (mkdirs_if_missing "uploaded" world0).1.

Definition zip_path0 : list string := resolve (cwd_of world1) (archive_path app0).

Definition tree2 : fs :=
  match zip_open (w_fs world1) zip_path0 with Ok (m, _) => m | Raise _ => ∅ end.

(** ** Variations of the course, one per error path or corner case *)

(** The gradebook server cannot be reached. *)
Definition db_down : database := mk_database false ["alice"; "bob"] eq_refl.

(** A directory already sits where the archive is to be written. *)
Definition tree_zipdir : fs :=
  <[["course"; "uploaded"; "hw1-feedback.zip"] := dir]> (<[["course"; "uploaded"] := dir]> tree).

Definition world_zipdir : world := mk_world tree_zipdir "/course" [] [] false None.

(** The output directory exists but is read-only. *)
Definition tree_ro : fs := <[["course"; "uploaded"] := Dir (mk_perms true false true)]> tree.

Definition world_ro : world := mk_world tree_ro "/course" [] [] false None.

(** The assignment has no source directory. *)
Definition tree_nosrc : fs :=
  delete ["course"; "source"; "hw1"; "hw1.ipynb"] (delete ["course"; "source"; "hw1"] tree).

Definition world_nosrc : world := mk_world tree_nosrc "/course" [] [] false None.

(** Both students have a feedback document. *)
Definition tree_both : fs :=
  <[["course"; "feedback"; "bob"; "hw1"; "report.html"] := File (Bytes "<p/>")]>
  (<[["course"; "feedback"; "bob"; "hw1"] := dir]> (<[["course"; "feedback"; "bob"] := dir]> tree)).

Definition world_both : world := mk_world tree_both "/course" [] [] false None.

(** [alice]'s feedback is split over two subdirectories holding
    documents of the same base name. *)
Definition tree_dup : fs :=
  <[["course"; "feedback"; "alice"; "hw1"; "part2"; "report.html"] := File (Bytes "<p>2</p>")]>
  (<[["course"; "feedback"; "alice"; "hw1"; "part2"] := dir]>
  (<[["course"; "feedback"; "alice"; "hw1"; "part1"; "report.html"] := File (Bytes "<p>1</p>")]>
  (<[["course"; "feedback"; "alice"; "hw1"; "part1"] := dir]>
  (delete ["course"; "feedback"; "alice"; "hw1"; "report.html"] tree)))).

Definition world_dup : world := mk_world tree_dup "/course" [] [] false None.

Definition zip_path_dup : list string := resolve (cwd_of world_dup) (archive_path app_no_source).

(** No assignment configured and no positional argument. *)
Definition cd_noaid : coursedir :=
  mk_coursedir "/course" "feedback" "source" "" "course101" "sqlite:///gradebook.db".

Definition app_noargs : app := mk_app default_config cd_noaid [].

(** Two positional arguments with the assignment configured. *)
Definition app_two_args : app := mk_app default_config cd0 ["hw1"; "extra"].

(** The state and application [initialize] returns on [app0]. *)
Definition init_world0 : world := (initialize app0 world0).1.

Definition init_app0 : app :=
  match (initialize app0 world0).2 with Ok a => a | Raise _ => app0 end.

Lemma tree_wf : wf tree.
Proof. apply (bool_decide_eq_true_1 _). by_eval. Qed.

(** The whole run on [tree_dup].  The archive flattens each student's
    feedback tree to base names
    ([os.path.basename(filename)], line 116): two feedback documents
    [part1/report.html] and [part2/report.html] of the same student both
    become [alice_assignsubmission_file_/report.html], so the archive the
    run writes holds two members of the same name, and extracting it
    keeps only one of the two documents. *)
Example archive_duplicate_names :
  (start db0 app_no_source world_dup).2 = Ok tt /\
  exists es, w_fs (start db0 app_no_source world_dup).1 !! zip_path_dup = Some (File (ZipData es))
    /\ length es = 2 /\ ~ NoDup (map fst es).
Proof.
  split; [by_eval|].
  exists [("alice_assignsubmission_file_/report.html", Some (Bytes "<p>2</p>"));
          ("alice_assignsubmission_file_/report.html", Some (Bytes "<p>1</p>"))].
  split_and!; [by_eval|done|]. simpl. intros [Hn _]%NoDup_cons. apply Hn. by left.
Qed.

End Scenario.
