(* ===== verification/Invariant.v ===== *)
(** * The process-state invariant and idempotence

    [world_ok]: the file tree is well formed and the archive being
    written, if any, is a regular file of it.  Every operation of the
    command preserves it, on its raising paths too.  [released]: no
    gradebook session and no archive are held; every run of [start]
    re-establishes it, whichever step raises.  A completed run is a
    fixed point of [start] (spec section 8, property 5). *)

From S2P Require Import Prelude PyPath FileSys Gradebook ZipArchive App Scenario.
Import PyStr PosixPath FileSys ZipFile ZipReleaseFeedbackApp.

(** ** The invariant

    The tree is well formed and the open archive, if any, is a regular
    file of it. *)
Definition world_ok (w : world) : Prop :=
  wf (w_fs w) /\ forall z, w_zip w = Some z -> exists c, w_fs w !! zf_path z = Some (File c).

(** No resource is held: the state is [world_ok], no gradebook session is
    open and no archive is being written. *)
Definition released (w : world) : Prop :=
  world_ok w /\ w_gb_open w = false /\ w_zip w = None.

Lemma modify_world_ok (f : world -> world) :
  (forall w, w_fs (f w) = w_fs w /\ w_zip (f w) = w_zip w) -> preserves world_ok (modify f).
Proof. intros Hf w [Hwf Hz]. unfold modify, world_ok; simpl. by destruct (Hf w) as [-> ->]. Qed.

Lemma fail_world_ok {A} msg : preserves world_ok (@fail A msg).
Proof. unfold fail. apply preserves_bind; [by apply modify_world_ok|]. intros; apply preserves_raise. Qed.

Lemma mkdirs_if_missing_world_ok path : preserves world_ok (mkdirs_if_missing path).
Proof.
  intros w Hw. pose proof Hw as [Hwf Hz]. unfold mkdirs_if_missing, fs_update.
  destruct (check_directory _ _ _ _ _); [done|]. simpl.
  destruct (makedirs (w_fs w) _) as [m'|e] eqn:E; [|done]. simpl.
  pose proof (makedirs_Ok _ _ _ E) as [Hsub _]. split.
  - eapply makedirs_wf; [done| |done]. apply resolve_valid, cwd_valid.
  - intros z Hzz. destruct (Hz z Hzz) as [c Hc]. exists c. by eapply lookup_weaken.
Qed.

Lemma archive_open_world_ok path : preserves world_ok (archive_open path).
Proof.
  intros w Hw. pose proof Hw as [Hwf _]. unfold archive_open.
  destruct (zip_open _ _) as [[m z]|e] eqn:E; [|done]. simpl.
  apply zip_open_Ok in E as [Hop ->].
  set (r := resolve (cwd_of w) path) in *.
  assert (Hne : r <> []).
  { intros Hr. rewrite Hr in Hop. destruct Hwf as [Hroot _].
    apply is_dir_Some in Hroot as [p Hp]. unfold open_w in Hop. by rewrite Hp in Hop. }
  split.
  - eapply open_w_wf; [done|done| |done]. apply last_valid; [done|]. apply resolve_valid, cwd_valid.
  - intros z [= <-]. apply open_w_Ok in Hop as [-> _]. simpl. eexists. apply lookup_insert_eq.
Qed.

Lemma archive_write_world_ok fn arc : preserves world_ok (archive_write fn arc).
Proof.
  intros w Hw. pose proof Hw as [Hwf Hz]. unfold archive_write.
  destruct (w_zip w) as [z|] eqn:Ez; [|done].
  unfold zip_write. destruct (w_fs w !! _); [|done]. simpl. split; [done|].
  intros z' Hz'. simpl in Hz'. injection Hz' as <-. simpl. by apply Hz.
Qed.

Lemma archive_close_world_ok : preserves world_ok archive_close.
Proof.
  intros w Hw. pose proof Hw as [Hwf Hz]. unfold archive_close.
  destruct (w_zip w) as [z|] eqn:Ez; [|done]. simpl. split; [|done].
  destruct (Hz z eq_refl) as [c Hc]. by eapply wf_insert_file.
Qed.

Lemma mkdirs_if_missing_frame path w :
  w_gb_open (mkdirs_if_missing path w).1 = w_gb_open w /\ w_zip (mkdirs_if_missing path w).1 = w_zip w.
Proof. unfold mkdirs_if_missing, fs_update. case_match; [done|]. simpl. by case_match. Qed.

Lemma archive_close_closes w : w_zip (archive_close w).1 = None.
Proof. unfold archive_close. by case_match. Qed.

#[export] Hint Resolve fail_world_ok mkdirs_if_missing_world_ok archive_open_world_ok
  archive_write_world_ok archive_close_world_ok : nbgrader.

Lemma write_sources_world_ok a dn : preserves world_ok (write_sources a dn).
Proof.
  intros w Hw. unfold write_sources. destruct (listdir _ _); [|done].
  revert w Hw. apply preserves_py_for. intros x _. destruct (is_notebook x); eauto with nbgrader.
Qed.

Lemma process_student_world_ok a sid : preserves world_ok (process_student a sid).
Proof.
  intros w Hw. unfold process_student. destruct (feedback_files a w sid); [done|].
  revert w Hw. apply preserves_bind.
  - apply preserves_py_for. eauto with nbgrader.
  - intros _. destruct (include_source _); [apply write_sources_world_ok|apply preserves_ret].
Qed.


Section StartInvariant.
Context {D : Type} `{GradebookApi D} (db : D) (a : app).

(** The [with zipfile.ZipFile(...)] block closes the archive on every
    path: it was never opened, or [archive_close] ran in the [finally]. *)
Lemma with_archive_closes {A} path (body : M A) w :
  preserves world_ok body -> world_ok w -> w_zip w = None ->
  world_ok (with_archive path body w).1 /\ w_zip (with_archive path body w).1 = None.
Proof.
  intros Hb Hw Hz. unfold with_archive, bind.
  pose proof (archive_open_world_ok path w Hw) as Ho.
  destruct (archive_open path w) as [w1 [u|e]] eqn:E.
  - unfold try_finally. specialize (Hb w1 Ho). destruct (body w1) as [w2 r].
    pose proof (archive_close_world_ok w2 Hb) as Hc. pose proof (archive_close_closes w2) as Hn.
    destruct (archive_close w2) as [w3 [u'|e']]; simpl in *; done.
  - unfold archive_open in E. destruct (zip_open _ _) as [[m z]|e']; inversion E; by subst.
Qed.

(** C2. Resource release on every path: from a state holding no
    resource, every run of [start] (completed, or interrupted by the
    output directory, the connection, the archive, the student query or
    the loop raising) ends with the file tree well formed, the gradebook
    session closed and no archive open. *)
Theorem start_ends_released w : released w -> released (start db a w).1.
Proof.
  intros Hr. pose proof Hr as (Hw & Hg & Hz). unfold start, bind at 1.
  pose proof (mkdirs_if_missing_world_ok (output_directory (app_config a)) w Hw) as Hw1.
  pose proof (mkdirs_if_missing_frame (output_directory (app_config a)) w) as [Hg1 Hz1].
  destruct (mkdirs_if_missing _ w) as [w1 [u|e]]; simpl in *; [|split_and!; first [done|congruence]].
  (* the [with Gradebook(...)] block: connect, then the body under [finally] *)
  unfold with_gradebook, lift, bind at 1.
  destruct (gb_connect db _ _); [|simpl; split_and!; first [done|congruence]]. unfold bind, modify, try_finally.
  set (body := with_archive _ _).
  destruct (with_archive_closes (archive_path a) (let* students := lift (gb_student_ids db
              (db_url (app_coursedir a)) (course_id (app_coursedir a))) in
              py_for students (process_student a)) (set_gb_open true w1)) as [Hw2 Hz2];
    [|done|simpl; congruence|].
  { apply preserves_bind; [apply preserves_lift|intros ids].
    apply preserves_py_for. intros sid _. apply process_student_world_ok. }
  unfold body. destruct (with_archive _ _ (set_gb_open true w1)) as [w2 r]. simpl in *. by split_and!.
Qed.
End StartInvariant.

Section Idempotence.
Context {D : Type} `{GradebookApi D} (db : D) (a : app).

Lemma insert_open_close (m1 : fs) r es :
  <[r := File (ZipData [])]> (<[r := File (ZipData es)]> (<[r := File (ZipData [])]> m1)) =
  <[r := File (ZipData [])]> m1.
Proof. by rewrite !insert_insert_eq. Qed.

(** C5. Idempotence (spec section 8, property 5): a completed run leaves
    a state on which running the command again completes, changes
    nothing and writes the same archive. *)
Theorem start_idempotent w w' :
  world_ok w -> start db a w = (w', Ok tt) -> start db a w' = (w', Ok tt).
Proof.
  intros Hw Hrun.
  destruct (start_Ok_inv db a w w' Hrun) as (w1 & m2 & ids & Hmk & Hconn & Hopen & Hids).
  assert (Hw1 : world_ok w1)
    by (pose proof (mkdirs_if_missing_world_ok (output_directory (app_config a)) w Hw) as X;
        by rewrite Hmk in X).
  assert (Hwf2 : wf m2).
  { pose proof (archive_open_world_ok (archive_path a) w1 Hw1) as [X _].
    unfold archive_open in X. by rewrite Hopen in X. }
  destruct (mkdirs_if_missing_Ok _ _ _ Hmk) as (Hchk & _ & Hcwd & _).
  pose proof Hopen as [Hop _]%zip_open_Ok. pose proof Hop as [Hm2 Hcase]%open_w_Ok.
  destruct (start_spec_eq db a w w1 m2 ids) as (es0 & r0 & E & Hs); [done..|].
  rewrite Hs in Hrun. injection Hrun as <- ->.
  set (r := resolve (cwd_of w1) (archive_path a)) in *.
  assert (Hr : (exists c, w_fs w1 !! r = Some (File c)) \/ w_fs w1 !! r = None)
    by (destruct Hcase as [[c0 ?]|[? _]]; eauto).
  set (w' := mk_world (zip_close m2 (mk_zipfile r es0)) (w_cwd w1) (w_sys_path w1) (w_log w1) false None).
  destruct (start_spec_eq db a w' w' m2 ids) as (es1 & r1 & E1 & Hs1); [|done| |done|done|].
  - apply mkdirs_if_missing_noop. simpl. unfold zip_close. simpl. rewrite Hm2.
    unfold check_directory in *. unfold cwd_of in *. rewrite <- Hcwd in Hchk.
    destruct (decide (r = resolve (resolve [] (w_cwd w1)) (output_directory (app_config a)))) as [Heq|Hne].
    + exfalso. rewrite <- Heq in Hchk. destruct Hr as [[c Hc]|Hc]; by rewrite Hc in Hchk.
    + by rewrite !lookup_insert_ne by done.
  - unfold zip_open, open_w. simpl. unfold zip_close. simpl. fold r. rewrite lookup_insert_eq. simpl.
    by rewrite Hm2, insert_open_close.
  - rewrite Hs1. unfold loop_world in *.
    rewrite (students_entries_ext a _ (set_zip (Some (mk_zipfile r [])) (set_fs m2 (set_gb_open true w1)))) in E1 by done.
    rewrite E in E1. by injection E1 as <- <-.
Qed.
End Idempotence.

Section Witnesses.
Import Scenario.

Lemma world0_ok : world_ok world0.
Proof. split; [apply (bool_decide_eq_true_1 _); by_eval | by intros z]. Qed.

Lemma start_idempotent_witness :
  start db0 app0 (start db0 app0 world0).1 = ((start db0 app0 world0).1, Ok tt).
Proof.
  apply (start_idempotent db0 app0 world0); [apply world0_ok|].
  by_eval.
Defined.
End Witnesses.
