(* ===== verification/Properties.v ===== *)
(** * What the archive contains

    An abstract specification of the archive [start] writes, stated on the
    file tree alone ([block_spec], [archived]), and the theorems that the
    model of [ZipReleaseFeedbackApp] implements it, together with the
    properties of spec section 8 and the error and resource behaviour of
    sections 4.2 and 7. *)

From S2P Require Import Prelude PyPath FileSys Gradebook ZipArchive App Scenario Invariant.
Import PyStr PosixPath FileSys ZipFile ZipReleaseFeedbackApp.

Section Spec.
Context (a : app) (m : fs) (cwd : list string).

Let cfg := app_config a.
Let cd := app_coursedir a.

(** The resolved feedback directory of a student, and the source
    directory of the assignment. *)
Definition feedback_dir (sid : string) : list string :=
  resolve cwd (format_path cd (feedback_directory cd) sid (assignment_id cd)).
Definition source_dir : list string := resolve cwd (source_file_path a).

Definition student_folder (sid : string) : string := (sid ++ dirname_suffix cfg)%string.

(** A rendered feedback document of the student: a regular file
    somewhere below the feedback directory whose name ends in [.html]. *)
Definition feedback_doc (sid : string) (rel : list string) (c : content) : Prop :=
  rel <> [] /\ m !! (feedback_dir sid ++ rel) = Some (File c)
  /\ endswith (List.last rel "") ".html" = true.

Definition has_feedback (sid : string) : Prop := exists rel c, feedback_doc sid rel c.

(** The entries of one student's folder (spec 4.2, steps 4 to 6). *)
Inductive block_spec (sid : string) : entry -> Prop :=
  | block_feedback rel c :
      feedback_doc sid rel c ->
      block_spec sid (join (student_folder sid) (List.last rel ""), Some c)
  | block_source n nd :
      has_feedback sid -> include_source cfg = true ->
      m !! (source_dir ++ [n]) = Some nd -> endswith n ".ipynb" = true ->
      block_spec sid (join (student_folder sid) (solution_prefix cfg ++ n),
                      payload m (source_dir ++ [n])).

(** The archive for a list of students. *)
Definition archived (students : list string) (e : entry) : Prop :=
  exists sid, In sid students /\ block_spec sid e.
End Spec.


Section Refinement.
Context (a : app) (w : world).
Let m := w_fs w.
Let cwd := cwd_of w.

Lemma in_feedback_files sid fn :
  wf m ->
  In fn (feedback_files a w sid) <->
  exists rel c, feedback_doc a m cwd sid rel c /\
    fn = join_many (format_path (app_coursedir a) (feedback_directory (app_coursedir a)) sid
                      (assignment_id (app_coursedir a))) rel.
Proof.
  intros Hwf. unfold feedback_files. rewrite filter_In, <- list_elem_of_In,
    elem_of_find_all_files. split.
  - intros [(rel & c & Hne & Hk & ->) Hh]. exists rel, c.
    destruct (wf_ancestor _ _ _ _ Hwf Hk Hne) as [_ Hv].
    destruct (exists_last Hne) as (rel' & n & ->).
    apply Forall_app in Hv as [_ [Hn _]%Forall_cons]. apply valid_name_spec in Hn.
    unfold is_feedback in Hh. rewrite endswith_join_many in Hh by tauto.
    split; [|done]. split_and!; [done|done|by rewrite last_last].
  - intros (rel & c & (Hne & Hk & Hh) & ->). split; [by exists rel, c|].
    destruct (wf_ancestor _ _ _ _ Hwf Hk Hne) as [_ Hv].
    destruct (exists_last Hne) as (rel' & n & ->).
    apply Forall_app in Hv as [_ [Hn _]%Forall_cons]. apply valid_name_spec in Hn.
    rewrite last_last in Hh. unfold is_feedback. rewrite endswith_join_many; tauto.
Qed.

Let top sid := format_path (app_coursedir a) (feedback_directory (app_coursedir a)) sid
                 (assignment_id (app_coursedir a)).

(** A feedback document is found by [find_all_files] at
    [os.path.join(top, *rel)], which resolves to its key and whose base
    name is its own. *)
Lemma feedback_doc_file sid rel c :
  wf m -> feedback_doc a m cwd sid rel c ->
  In (join_many (top sid) rel) (feedback_files a w sid)
  /\ resolve cwd (join_many (top sid) rel) = feedback_dir a cwd sid ++ rel
  /\ basename (join_many (top sid) rel) = List.last rel "".
Proof.
  intros Hwf Hd. split; [apply in_feedback_files; [done|by exists rel, c]|].
  destruct Hd as (Hne & Hk & _). destruct (wf_ancestor _ _ _ _ Hwf Hk Hne) as [_ Hv].
  split; [by unfold top; rewrite resolve_join_many|].
  destruct (exists_last Hne) as (rel' & n & ->).
  apply Forall_app in Hv as [_ [Hn _]%Forall_cons]. apply valid_name_spec in Hn.
  rewrite basename_join_many, last_last by tauto. done.
Qed.

Lemma in_feedback_entries sid dn e :
  wf m ->
  In e (map (fun fn => (join dn (basename fn), payload m (resolve cwd fn))) (feedback_files a w sid))
  <-> exists rel c, feedback_doc a m cwd sid rel c /\ e = (join dn (List.last rel ""), Some c).
Proof.
  intros Hwf. rewrite in_map_iff. split.
  - intros (fn & <- & Hin). apply in_feedback_files in Hin as (rel & c & Hd & ->); [|done].
    exists rel, c. split; [done|].
    destruct (feedback_doc_file sid rel c Hwf Hd) as (_ & Hr & Hb). unfold top in Hr, Hb.
    unfold payload. rewrite Hb, Hr. destruct Hd as (_ & Hk & _). by rewrite Hk.
  - intros (rel & c & Hd & ->). exists (join_many (top sid) rel).
    destruct (feedback_doc_file sid rel c Hwf Hd) as (Hin & Hr & Hb).
    split; [|done]. unfold payload. rewrite Hb, Hr. destruct Hd as (_ & Hk & _). by rewrite Hk.
Qed.

(** The entries of one student begin with its feedback documents, in the
    order [find_all_files] lists them (line 116 runs before line 117). *)
Lemma student_entries_feedback_prefix sid :
  exists rest, (student_entries a w sid).1 =
    map (fun fn => (join (sid ++ dirname_suffix (app_config a)) (basename fn), payload m (resolve cwd fn)))
        (feedback_files a w sid) ++ rest.
Proof.
  unfold student_entries. destruct (feedback_files a w sid) as [|f fs]; [by exists []|].
  repeat case_match; simpl; first [by eexists | exists []; by rewrite app_nil_r].
Qed.

Lemma in_source_entries names dn e :
  wf m -> listdir m (source_dir a cwd) = Ok names ->
  In e (map (fun fn => (join dn (solution_prefix (app_config a) ++ basename fn),
                        payload m (resolve cwd (join (source_file_path a) fn))))
            (List.filter is_notebook names))
  <-> exists n nd, m !! (source_dir a cwd ++ [n]) = Some nd /\ endswith n ".ipynb" = true
      /\ e = (join dn (solution_prefix (app_config a) ++ n), payload m (source_dir a cwd ++ [n])).
Proof.
  intros Hwf Hls. pose proof Hls as (p & _ & _ & ->)%listdir_Ok.
  rewrite in_map_iff. setoid_rewrite filter_In. setoid_rewrite <- list_elem_of_In.
  setoid_rewrite elem_of_children. split.
  - intros (n & <- & [nd Hnd] & Hnb).
    destruct (wf_parent _ _ _ Hwf Hnd) as [Hv _]; [by destruct (source_dir a cwd)|].
    rewrite last_last in Hv. pose proof Hv as (_ & _ & _ & Hs)%valid_name_spec.
    exists n, nd. split_and!; [done|done|].
    unfold basename. rewrite split_sep_no_sep by done. simpl.
    fold cwd. by rewrite resolve_join.
  - intros (n & nd & Hnd & Hnb & ->). exists n.
    destruct (wf_parent _ _ _ Hwf Hnd) as [Hv _]; [by destruct (source_dir a cwd)|].
    rewrite last_last in Hv. pose proof Hv as (_ & _ & _ & Hs)%valid_name_spec.
    split_and!; [|by eexists|done].
    unfold basename. rewrite split_sep_no_sep by done. simpl.
    fold cwd. by rewrite resolve_join.
Qed.

Lemma has_feedback_files sid :
  wf m -> has_feedback a m cwd sid <-> feedback_files a w sid <> [].
Proof.
  intros Hwf. split.
  - intros (rel & c & Hd) Hnil.
    assert (Hin : In (join_many (top sid) rel) (feedback_files a w sid))
      by (apply in_feedback_files; [done|eauto]).
    by rewrite Hnil in Hin.
  - destruct (feedback_files a w sid) as [|fn fs'] eqn:E; [done|]. intros _.
    assert (Hin : In fn (feedback_files a w sid)) by (rewrite E; left; done).
    apply in_feedback_files in Hin as (rel & c & Hd & _); [|done]. by exists rel, c.
Qed.

(** One student's block, when its iteration completes, is exactly the
    folder the abstract specification describes. *)
Lemma student_entries_refines sid :
  wf m -> (student_entries a w sid).2 = Ok tt ->
  forall e, In e (student_entries a w sid).1 <-> block_spec a m cwd sid e.
Proof.
  intros Hwf Hok e.
  assert (Hfb : forall dn, In e (map (fun fn => (join dn (basename fn), payload m (resolve cwd fn)))
                                   (feedback_files a w sid))
                <-> exists rel c, feedback_doc a m cwd sid rel c /\ e = (join dn (List.last rel ""), Some c))
    by (intros; by apply in_feedback_entries).
  unfold student_entries in *. fold m cwd in Hok |- *.
  destruct (feedback_files a w sid) as [|f0 fs0] eqn:Hf.
  - split; [done|]. intros Hb. apply (has_feedback_files sid Hwf); [|done].
    destruct Hb as [rel c Hd|]; [by exists rel, c|done].
  - rewrite <- Hf in *. assert (Hhas : has_feedback a m cwd sid)
      by (apply has_feedback_files; [done|by rewrite Hf]).
    destruct (include_source (app_config a)) eqn:Hinc.
    + destruct (listdir m _) as [names|err] eqn:Hls; [|done]. simpl.
      rewrite in_app_iff, Hfb, in_source_entries by done. split.
      * intros [(rel & c & Hd & ->)|(n & nd & Hnd & Hnb & ->)]; econstructor; eauto.
      * intros [rel c Hd|n nd _ _ Hnd Hnb]; [left|right]; eauto 10.
    + simpl. rewrite Hfb. split.
      * intros (rel & c & Hd & ->). by constructor.
      * intros [rel c Hd|n nd _ Hinc' _ _]; [eauto|congruence].
Qed.

(** The whole loop: when no iteration raises, the archive's entries are
    the union of the students' folders. *)
Lemma students_entries_refines ids :
  wf m -> (students_entries a w ids).2 = Ok tt ->
  forall e, In e (students_entries a w ids).1 <-> archived a m cwd ids e.
Proof.
  intros Hwf. induction ids as [|sid ids IH]; simpl; intros Hok e.
  - split; [done|]. by intros (? & [] & _).
  - destruct (student_entries a w sid) as [es [u|err]] eqn:E; [|done].
    destruct (students_entries a w ids) as [es' r'] eqn:E'. simpl in *.
    assert (Hs : (student_entries a w sid).2 = Ok tt) by (rewrite E; by destruct u).
    pose proof (student_entries_refines sid Hwf Hs) as Hb. rewrite E in Hb. simpl in Hb.
    rewrite in_app_iff, Hb, IH by done. unfold archived. split.
    + intros [H|(s & Hin & H)]; [exists sid|exists s]; simpl; auto.
    + intros (s & [<-|Hin] & H); [by left|right; eauto].
Qed.
End Refinement.

(** * The properties *)

Section StartProperties.
Context {D : Type} `{GradebookApi D} (db : D) (a : app).

(** C1. When the output directory, the gradebook, the archive and the
    student query are all available and the run completes, the archive
    file holds exactly the entries the abstract specification [archived]
    describes for the students the gradebook returned, and both context
    managers have been exited. *)
Theorem start_archive_contents w w1 m2 ids :
  world_ok w ->
  mkdirs_if_missing (output_directory (app_config a)) w = (w1, Ok tt) ->
  gb_connect db (db_url (app_coursedir a)) (course_id (app_coursedir a)) = Ok tt ->
  zip_open (w_fs w1) (resolve (cwd_of w1) (archive_path a)) =
    Ok (m2, mk_zipfile (resolve (cwd_of w1) (archive_path a)) []) ->
  gb_student_ids db (db_url (app_coursedir a)) (course_id (app_coursedir a)) = Ok ids ->
  (start db a w).2 = Ok tt ->
  exists es,
    w_fs (start db a w).1 !! resolve (cwd_of w1) (archive_path a) = Some (File (ZipData es))
    /\ (forall e, In e es <-> archived a m2 (cwd_of w1) ids e)
    /\ w_gb_open (start db a w).1 = false /\ w_zip (start db a w).1 = None.
Proof.
  intros Hw Hmk Hconn Hopen Hids Hrun.
  assert (Hw1 : world_ok w1) by (pose proof (mkdirs_if_missing_world_ok (output_directory (app_config a)) w Hw) as Hw1; by rewrite Hmk in Hw1).
  assert (Hwf2 : wf m2).
  { pose proof (archive_open_world_ok (archive_path a) w1 Hw1) as [Hwf _].
    unfold archive_open in Hwf. by rewrite Hopen in Hwf. }
  rewrite (start_spec db a w w1 m2 ids) in Hrun |- * by done. simpl in *.
  eexists. split_and!; [apply lookup_insert_eq| |done|done].
  by apply (students_entries_refines a (loop_world w1 m2 _)).
Qed.

End StartProperties.

Section Witnesses1.
Import Scenario.


Lemma start_archive_contents_witness :
  (start db0 app0 world0).2 = Ok tt /\
  exists es,
    w_fs (start db0 app0 world0).1 !! zip_path0 = Some (File (ZipData es))
    /\ (forall e, In e es <-> archived app0 tree2 (cwd_of world1) ["alice"; "bob"] e)
    /\ w_gb_open (start db0 app0 world0).1 = false /\ w_zip (start db0 app0 world0).1 = None.
Proof.
  split; [by_eval|].
  apply (start_archive_contents db0 app0 world0 world1 tree2 ["alice"; "bob"]);
    [apply world0_ok|by_eval..].
Defined.
End Witnesses1.

(** C4. With [include_source] off, every entry the loop writes is a
    rendered feedback document of a listed student, stored in that
    student's folder under its base name, which ends in [.html]
    (spec section 8, property 4). *)
Theorem no_source_without_include_source a w ids e :
  wf (w_fs w) -> include_source (app_config a) = false ->
  In e (students_entries a w ids).1 ->
  endswith e.1 ".html" = true /\
  exists sid rel c, In sid ids /\ feedback_doc a (w_fs w) (cwd_of w) sid rel c
                    /\ e = (join (student_folder a sid) (List.last rel ""), Some c).
Proof.
  intros Hwf Hinc (sid & Hsid & Hin)%students_entries_in.
  unfold student_entries in Hin. rewrite Hinc in Hin.
  destruct (feedback_files a w sid) eqn:Hf; [done|]. rewrite <- Hf in Hin. simpl in Hin.
  apply in_feedback_entries in Hin as (rel & c & Hd & ->); [|done].
  split; [|by exists sid, rel, c]. simpl.
  destruct Hd as (Hne & Hk & Hh).
  destruct (wf_ancestor _ _ _ _ Hwf Hk Hne) as [_ Hv].
  apply (last_valid rel Hne), valid_name_spec in Hv as (_ & _ & _ & Hs).
  by rewrite endswith_join.
Qed.


Section Witnesses2.
Import Scenario.


Lemma no_source_without_include_source_witness :
  endswith "alice_assignsubmission_file_/report.html" ".html" = true /\
  exists sid rel c, In sid ["alice"; "bob"] /\ feedback_doc app_no_source tree (cwd_of world0) sid rel c
    /\ ("alice_assignsubmission_file_/report.html", Some (Bytes "<html/>"))
       = (join (student_folder app_no_source sid) (List.last rel ""), Some c).
Proof.
  apply (no_source_without_include_source app_no_source world0 ["alice"; "bob"]
           ("alice_assignsubmission_file_/report.html", Some (Bytes "<html/>")));
    [apply tree_wf|reflexivity|vm_compute; by left].
Defined.

End Witnesses2.

(** ** Error paths of the loop (spec section 7) *)

Section LoopErrors.
Context (a : app) (w : world).
Let m := w_fs w.
Let cwd := cwd_of w.

Lemma no_feedback_no_entries sid :
  wf m -> ~ has_feedback a m cwd sid -> student_entries a w sid = ([], Ok tt).
Proof.
  intros Hwf Hno. unfold student_entries.
  destruct (feedback_files a w sid) eqn:E; [done|].
  exfalso. apply Hno, has_feedback_files; [done|]. by rewrite E.
Qed.

(** C15. A missing per-student feedback directory is not an error: the
    student contributes nothing and the loop goes on (spec section 7). *)
Theorem missing_feedback_dir_no_entries sid :
  wf m -> is_dir m (feedback_dir a cwd sid) = false -> student_entries a w sid = ([], Ok tt).
Proof.
  intros Hwf Hnd. unfold student_entries, feedback_files.
  fold m cwd. unfold feedback_dir in Hnd. by rewrite find_all_files_not_dir.
Qed.

(** C6. With [include_source] on and the assignment's source directory
    missing, the loop raises [FileNotFoundError] at the first student
    who has feedback, after writing that student's feedback documents
    and nothing else: the archive is left partial (spec section 7 does
    not cover this case). *)
Theorem missing_source_dir_aborts pre sid post :
  wf m -> include_source (app_config a) = true ->
  Forall (fun s => ~ has_feedback a m cwd s) pre -> has_feedback a m cwd sid ->
  m !! source_dir a cwd = None ->
  (students_entries a w (pre ++ sid :: post)).2 = Raise (FileNotFoundError (source_dir a cwd)) /\
  forall e, In e (students_entries a w (pre ++ sid :: post)).1 <->
    exists rel c, feedback_doc a m cwd sid rel c /\ e = (join (student_folder a sid) (List.last rel ""), Some c).
Proof.
  intros Hwf Hinc Hpre Hsid Hsrc.
  induction Hpre as [|s pre Hs Hpre IH]; simpl.
  - unfold student_entries. fold m cwd.
    destruct (feedback_files a w sid) eqn:E.
    { exfalso. by apply (has_feedback_files a w sid Hwf) in Hsid. }
    rewrite <- E, Hinc. unfold listdir. unfold source_dir in Hsrc. rewrite Hsrc. simpl.
    split; [done|]. intros e. by apply in_feedback_entries.
  - rewrite no_feedback_no_entries by done. simpl.
    destruct (students_entries a w (pre ++ sid :: post)) as [es r]. exact IH.
Qed.
End LoopErrors.

(** ** Entry names *)

Section EntryNames.
Context (a : app).

Lemma block_entry_fields m cwd sid e :
  wf m -> student_folder a sid <> "" -> str_has "/" (student_folder a sid) = false ->
  str_has "/" (solution_prefix (app_config a)) = false ->
  block_spec a m cwd sid e -> exists x, split_sep e.1 = [student_folder a sid; x].
Proof.
  intros Hwf Hne Hf Hp Hb. destruct Hb as [rel c (Hrel & Hk & _)|n nd _ _ Hnd _]; simpl.
  - destruct (wf_ancestor _ _ _ _ Hwf Hk Hrel) as [_ Hv].
    apply (last_valid rel Hrel), valid_name_spec in Hv as (_ & _ & _ & Hx).
    eexists. by apply split_join_plain.
  - destruct (wf_parent _ _ _ Hwf Hnd) as [Hv _]; [by destruct (source_dir a cwd)|].
    rewrite last_last in Hv. apply valid_name_spec in Hv as (_ & _ & _ & Hx).
    eexists. apply split_join_plain; [done|done|]. by rewrite str_has_app, Hp, Hx.
Qed.

(** C13. Round trip of the archive names: splitting the name of any
    entry of a completed loop at its separators gives back exactly the
    folder of one of the listed students and one plain file name, and
    joining them again gives the name. *)
Theorem archive_entry_name_roundtrip w ids e :
  wf (w_fs w) -> (students_entries a w ids).2 = Ok tt ->
  Forall (fun sid => student_folder a sid <> "" /\ str_has "/" (student_folder a sid) = false) ids ->
  str_has "/" (solution_prefix (app_config a)) = false ->
  In e (students_entries a w ids).1 ->
  exists sid x, In sid ids /\ split_sep e.1 = [student_folder a sid; x] /\ str_has "/" x = false
                /\ String.concat "/" [student_folder a sid; x] = e.1.
Proof.
  intros Hwf Hok Hids Hp Hin.
  apply students_entries_refines in Hin as (sid & Hsid & Hb); [|done|done].
  apply Forall_forall with (x := sid) in Hids as [Hne Hf]; [|by apply list_elem_of_In].
  destruct (block_entry_fields _ _ sid e Hwf Hne Hf Hp Hb) as [x Hx].
  exists sid, x. split_and!; [done|done| |].
  - pose proof (split_sep_no_sep_fields e.1) as Hall. rewrite Hx in Hall.
    by apply Forall_cons in Hall as [_ [? _]%Forall_cons].
  - by rewrite <- Hx, concat_split_sep.
Qed.

(** C14. Entries written for two different students never share a name,
    so no student's file overwrites another's when the archive is
    extracted. *)
Theorem student_entries_disjoint w sid1 sid2 e1 e2 :
  wf (w_fs w) -> sid1 <> sid2 ->
  student_folder a sid1 <> "" -> str_has "/" (student_folder a sid1) = false ->
  student_folder a sid2 <> "" -> str_has "/" (student_folder a sid2) = false ->
  str_has "/" (solution_prefix (app_config a)) = false ->
  (student_entries a w sid1).2 = Ok tt -> (student_entries a w sid2).2 = Ok tt ->
  In e1 (student_entries a w sid1).1 -> In e2 (student_entries a w sid2).1 -> e1.1 <> e2.1.
Proof.
  intros Hwf Hne Hn1 Hf1 Hn2 Hf2 Hp Hok1 Hok2 Hin1 Hin2 Heq.
  apply student_entries_refines in Hin1; [|done|done].
  apply student_entries_refines in Hin2; [|done|done].
  destruct (block_entry_fields _ _ _ _ Hwf Hn1 Hf1 Hp Hin1) as [x1 Hx1].
  destruct (block_entry_fields _ _ _ _ Hwf Hn2 Hf2 Hp Hin2) as [x2 Hx2].
  rewrite Heq, Hx2 in Hx1. injection Hx1 as Hfold _.
  apply Hne. by apply str_app_inv_r in Hfold.
Qed.
End EntryNames.


(** ** Names that collide (line 116) *)

Section Collisions.
Context (a : app) (w : world).
Let m := w_fs w.
Let cwd := cwd_of w.

(** C7. The archive names keep only [os.path.basename] of each feedback
    document found recursively (line 116): whenever a student has two
    different feedback documents whose base names agree (in different
    subdirectories of the feedback folder), the entries the loop writes
    for that student hold two members of the same name, on every path
    of the iteration (with or without sources, completed or raising). *)
Theorem feedback_basename_collision sid rel1 rel2 c1 c2 :
  wf m -> feedback_doc a m cwd sid rel1 c1 -> feedback_doc a m cwd sid rel2 c2 ->
  rel1 <> rel2 -> List.last rel1 "" = List.last rel2 "" ->
  ~ NoDup (map fst (student_entries a w sid).1).
Proof.
  intros Hwf H1 H2 Hne Hl Hnd.
  destruct (feedback_doc_file a w sid rel1 c1 Hwf H1) as (Hin1 & Hr1 & Hb1).
  destruct (feedback_doc_file a w sid rel2 c2 Hwf H2) as (Hin2 & Hr2 & Hb2).
  destruct (student_entries_feedback_prefix a w sid) as [rest Hrest].
  rewrite Hrest, map_app, map_map in Hnd. apply NoDup_app in Hnd as [Hnd _].
  apply Hne, (app_inv_head (feedback_dir a cwd sid)). unfold cwd.
  rewrite <- Hr1, <- Hr2. f_equal.
  eapply (NoDup_map_eq _ _ _ _ Hnd Hin1 Hin2). simpl. by rewrite Hb1, Hb2, Hl.
Qed.
End Collisions.
