(* ===== verification/Witnesses.v ===== *)
(** * The theorems on the concrete course

    Each theorem with hypotheses, instantiated on one of the courses of
    [Scenario], its hypotheses discharged by evaluating the model. *)

From S2P Require Import Prelude PyPath FileSys Gradebook ZipArchive App Scenario Invariant Properties.
Import PyStr PosixPath FileSys ZipFile ZipReleaseFeedbackApp Scenario ListGradebook.

Lemma start_ends_released_witness : released (start db0 app0 world0).1.
Proof. apply (start_ends_released db0 app0 world0). split_and!; [exact world0_ok|done|done]. Defined.

Lemma start_releases_resources_witness :
  let z0 := mk_zipfile (resolve (cwd_of world1) (archive_path app0)) [] in
  let res := match gb_student_ids db0 (db_url (app_coursedir app0)) (course_id (app_coursedir app0)) with
             | Ok ids => students_entries app0 (loop_world world1 tree2 z0) ids
             | Raise e => ([], Raise e)
             end in
  start db0 app0 world0 =
    (mk_world (zip_close tree2 (mk_zipfile (resolve (cwd_of world1) (archive_path app0)) res.1))
              (w_cwd world1) (w_sys_path world1) (w_log world1) false None, res.2).
Proof.
  apply (start_releases_resources db0 app0 world0 world1 tree2); [concrete|concrete| |concrete].
  apply zip_open_succeeds. by_eval.
Defined.

Lemma start_connect_fails_witness :
  start db_down app0 world0 = (world1, Raise (DatabaseError "sqlite:///gradebook.db")).
Proof. apply (start_connect_fails db_down app0 world0 world1); concrete. Defined.

Lemma start_open_fails_witness :
  start db0 app0 world_zipdir =
    (set_gb_open false world_zipdir, Raise (IsADirectoryError ["course"; "uploaded"; "hw1-feedback.zip"])).
Proof. apply (start_open_fails db0 app0 world_zipdir world_zipdir); concrete. Defined.

Lemma mkdirs_if_missing_exists_unusable_witness :
  mkdirs_if_missing "uploaded" world_ro =
    (add_log "WARNING" ("Directory not found. Creating: " ++ "uploaded") world_ro,
     Raise (FileExistsError (resolve (cwd_of world_ro) "uploaded"))).
Proof.
  apply (mkdirs_if_missing_exists_unusable "uploaded" world_ro (Dir (mk_perms true false true))); concrete.
Defined.

Lemma mkdirs_if_missing_succeeds_witness :
  exists w', mkdirs_if_missing "out/zips" world0 = (w', Ok tt)
             /\ check_directory (w_fs w') (resolve (cwd_of world0) "out/zips") false true true = true.
Proof. apply (mkdirs_if_missing_succeeds "out/zips" world0); concrete. Defined.

Lemma mkdirs_if_missing_spec_witness :
  let r := resolve (cwd_of world0) "uploaded" in
  if check_directory (w_fs world0) r false true true then world1 = world0
  else w_log world1 = w_log world0 ++ [("WARNING", "Directory not found. Creating: " ++ "uploaded")%string]
       /\ w_fs world1 !! r = Some (Dir default_dir_perms) /\ w_fs world0 ⊆ w_fs world1.
Proof. apply (mkdirs_if_missing_spec "uploaded" world0 world1); concrete. Defined.

Lemma initialize_ok_witness :
  w_cwd init_world0 ∈ w_sys_path init_world0 /\ app_config init_app0 = app_config app0
  /\ extra_args init_app0 = extra_args app0 /\
  match extra_args app0 with
  | [aid] => assignment_id (app_coursedir init_app0) = aid
  | args => length args <= 2 /\ app_coursedir init_app0 = app_coursedir app0
            /\ assignment_id (app_coursedir app0) <> ""
  end.
Proof. apply (initialize_ok app0 world0 init_world0 init_app0); concrete. Defined.

Lemma initialize_fails_witness :
  (initialize app_noargs world0).2 = Raise (SystemExit 1) /\
  exists msg, w_log (initialize app_noargs world0).1 = w_log world0 ++ [("ERROR", msg)].
Proof. apply (initialize_fails app_noargs world0). left. split; reflexivity. Defined.

Lemma missing_feedback_dir_no_entries_witness : student_entries app0 world0 "bob" = ([], Ok tt).
Proof. apply (missing_feedback_dir_no_entries app0 world0 "bob"); concrete. Defined.

Lemma missing_source_dir_aborts_witness :
  (students_entries app0 world_nosrc ([] ++ "alice" :: ["bob"])).2
    = Raise (FileNotFoundError (source_dir app0 (cwd_of world_nosrc))) /\
  forall e, In e (students_entries app0 world_nosrc ([] ++ "alice" :: ["bob"])).1 <->
    exists rel c, feedback_doc app0 (w_fs world_nosrc) (cwd_of world_nosrc) "alice" rel c
                  /\ e = (join (student_folder app0 "alice") (List.last rel ""), Some c).
Proof.
  apply (missing_source_dir_aborts app0 world_nosrc [] "alice" ["bob"]); [concrete|concrete|constructor| |concrete].
  exists ["report.html"], (Bytes "<html/>"). split; [discriminate|split; concrete].
Defined.

Lemma archive_entry_name_roundtrip_witness :
  exists sid x, In sid ["alice"; "bob"]
    /\ split_sep ("alice_assignsubmission_file_/report.html", Some (Bytes "<html/>")).1
         = [student_folder app0 sid; x] /\ str_has "/" x = false
    /\ String.concat "/" [student_folder app0 sid; x]
         = ("alice_assignsubmission_file_/report.html", Some (Bytes "<html/>")).1.
Proof.
  apply (archive_entry_name_roundtrip app0 world0 ["alice"; "bob"]
           ("alice_assignsubmission_file_/report.html", Some (Bytes "<html/>"))); concrete.
Defined.

Lemma student_entries_disjoint_witness :
  ("alice_assignsubmission_file_/report.html", Some (Bytes "<html/>")).1
    <> ("bob_assignsubmission_file_/report.html", Some (Bytes "<p/>")).1.
Proof.
  apply (student_entries_disjoint app0 world_both "alice" "bob"
           ("alice_assignsubmission_file_/report.html", Some (Bytes "<html/>"))
           ("bob_assignsubmission_file_/report.html", Some (Bytes "<p/>"))); concrete.
Defined.

Lemma initialize_two_args_accepted_witness :
  initialize app_two_args world0 = ((add_cwd_to_sys_path world0).1, Ok app_two_args).
Proof. apply (initialize_two_args_accepted app_two_args world0); concrete. Defined.

Lemma feedback_basename_collision_witness :
  ~ NoDup (map fst (student_entries app_no_source world_dup "alice").1).
Proof.
  apply (feedback_basename_collision app_no_source world_dup "alice"
           ["part1"; "report.html"] ["part2"; "report.html"] (Bytes "<p>1</p>") (Bytes "<p>2</p>"));
    [concrete| | |concrete|concrete].
  - unfold feedback_doc. split_and!; concrete.
  - unfold feedback_doc. split_and!; concrete.
Defined.
